(** * s3_client: a logging wrapper over the boto3 S3 client

    Shallow embedding of [src/s3_client.py].  Python objects are modelled by
    the data they carry: dictionaries are finite maps from strings to Python
    values, [Optional] arguments are options, exceptions are a result type,
    and the side effects of the module (the filesystem, the [logging]
    registry, the calls received by a logger, the calls made to the SDK) are
    threaded through a state-and-exception monad. *)

From Stdlib Require Import ZArith String Ascii List Bool Lia.
From stdpp Require Import base option list strings gmap.

Open Scope string_scope.
Open Scope Z_scope.

(** ** Python values *)

Module Py.

(** [pathlib.PurePosixPath]: a root ("", "/" or "//") and the components
    after it.  Empty components and "." are dropped when a string is
    parsed; ".." is kept. *)
Record Path := mkPath { root : string; parts : list string }.

(** The exceptions the module can see.  [ClientError] is
    [botocore.exceptions.ClientError]; [BotoCoreError] stands for the other
    family of SDK errors ([EndpointConnectionError], [NoCredentialsError],
    [ReadTimeoutError], ...), which does not derive from [ClientError]. *)
Inductive os_error :=
| FileNotFoundError | FileExistsError | NotADirectoryError | IsADirectoryError.

Inductive exn :=
| ClientError (code : string) (operation_name : string)
| BotoCoreError (kind : string)
| KeyError (key : string)
| OSError (kind : os_error) (filename : string).

(** What a call gives: a value, or a raised exception. *)
Inductive result (A : Type) :=
| Ok (a : A)
| Raise (e : exn).
#[global] Arguments Ok {A} a.
#[global] Arguments Raise {A} e.

Inductive pyval :=
| PNone
| PInt (n : Z)
| PStr (s : string)
| PDatetime (seconds : Z)
| PPath (p : Path)
| PExc (e : exn).

#[global] Instance os_error_eq_dec : EqDecision os_error.
Proof. solve_decision. Defined.
#[global] Instance exn_eq_dec : EqDecision exn.
Proof. solve_decision. Defined.
#[global] Instance Path_eq_dec : EqDecision Path.
Proof. solve_decision. Defined.
#[global] Instance pyval_eq_dec : EqDecision pyval.
Proof. solve_decision. Defined.

(** [isinstance(e, ClientError)], the test made by [except ClientError]. *)
Definition is_ClientError (e : exn) : bool :=
  match e with ClientError _ _ => true | _ => false end.

(** Truth value of an [Optional[str]]: [None] and [""] are false. *)
Definition truthy (x : option string) : bool :=
  match x with
  | Some s => negb (String.eqb s "")
  | None => false
  end.

(** [x or y] on [Optional[str]] operands. *)
Definition py_or (x y : option string) : option string :=
  if truthy x then x else y.

Definition of_optional (x : option string) : pyval :=
  match x with Some s => PStr s | None => PNone end.

(** [d[k]] and [d.get(k, default)] on a dictionary. *)
Definition getitem (d : gmap string pyval) (k : string) : result pyval :=
  match d !! k with
  | Some v => Ok v
  | None => Raise (KeyError k)
  end.

Definition get (d : gmap string pyval) (k : string) (default : pyval) : pyval :=
  match d !! k with
  | Some v => v
  | None => default
  end.

End Py.
Export Py.

(** ** pathlib *)

Module Pathlib.

Definition slash : ascii := "/"%char.

(** [s.split("/")], with [cur] the component being read. *)
Fixpoint split_slash (s cur : string) : list string :=
  match s with
  | EmptyString => [cur]
  | String c s' =>
      if Ascii.eqb c slash then cur :: split_slash s' ""
      else split_slash s' (cur ++ String c "")
  end.

Fixpoint leading_slashes (s : string) : nat :=
  match s with
  | String c s' => if Ascii.eqb c slash then S (leading_slashes s') else O
  | EmptyString => O
  end.

(** POSIX keeps exactly two leading slashes as a root of its own. *)
Definition parse_root (s : string) : string :=
  match leading_slashes s with
  | O => ""
  | 2%nat => "//"
  | _ => "/"
  end.

Definition keep_part (c : string) : bool :=
  negb (String.eqb c "") && negb (String.eqb c ".").

(** [Path(s)] *)
Definition Path_of (s : string) : Path :=
  {| root := parse_root s; parts := List.filter keep_part (split_slash s "") |}.

Fixpoint join_slash (l : list string) : string :=
  match l with
  | [] => ""
  | [c] => c
  | c :: l' => c ++ "/" ++ join_slash l'
  end.

(** [str(p)] *)
Definition str (p : Path) : string :=
  match root p, parts p with
  | "", [] => "."
  | r, l => r ++ join_slash l
  end.

(** [p.name]: the final component, [""] when there is none. *)
Definition name (p : Path) : string := List.last (parts p) "".

(** [p.parent]: the path without its final component; a path with no
    component is its own parent. *)
Definition parent (p : Path) : Path :=
  {| root := root p; parts := List.removelast (parts p) |}.

(** [p / q]: an anchored right operand replaces the left one. *)
Definition truediv (p q : Path) : Path :=
  if String.eqb (root q) "" then {| root := root p; parts := parts p ++ parts q |}
  else q.

End Pathlib.
Export Pathlib.

Infix "//" := truediv (at level 40, left associativity).

(** ** The filesystem

    Files and directories are keyed by the string of their path as pathlib
    writes it.  A path with no component (the working directory or a root)
    always exists; symbolic links, permissions and the resolution of ".." are
    left out. *)

Inductive node := Dir | File (content : list Byte.byte).

Module Os.

Definition is_dir (fs : gmap string node) (p : Path) : bool :=
  match parts p with
  | [] => true
  | _ => match fs !! str p with Some Dir => true | _ => false end
  end.

(** The walk of the kernel down the directories above a path, [above]
    being the components already passed: the first component that is not
    a directory stops it, with ENOTDIR where a file is and ENOENT where
    nothing is. *)
Fixpoint walk (r : string) (above todo : list string) (fs : gmap string node)
  : option os_error :=
  match todo with
  | [] => None
  | c :: todo' =>
      match fs !! str (mkPath r (above ++ [c])) with
      | Some Dir => walk r (above ++ [c]) todo' fs
      | Some (File _) => Some NotADirectoryError
      | None => Some FileNotFoundError
      end
  end.

(** [os.mkdir(p)] *)
Definition os_mkdir (p : Path) (fs : gmap string node) : result (gmap string node) :=
  match parts p with
  | [] => Raise (OSError FileExistsError (str p))
  | _ =>
      match walk (root p) [] (removelast (parts p)) fs with
      | Some err => Raise (OSError err (str p))
      | None =>
          match fs !! str p with
          | Some _ => Raise (OSError FileExistsError (str p))
          | None => Ok (<[str p := Dir]> fs)
          end
      end
  end.

(** [Path.mkdir(parents=False, exist_ok=True)]: an [OSError] other than
    [FileNotFoundError] is swallowed when the path is a directory. *)
Definition mkdir_exist_ok (p : Path) (fs : gmap string node) : result (gmap string node) :=
  match os_mkdir p fs with
  | Ok fs' => Ok fs'
  | Raise (OSError FileNotFoundError f) => Raise (OSError FileNotFoundError f)
  | Raise e => if is_dir fs p then Ok fs else Raise e
  end.

(** [Path.mkdir(parents=True, exist_ok=True)], by recursion on the
    components read from the last one: on [FileNotFoundError] the parent is
    made first and the directory is made again. *)
Fixpoint mkdir_parents (r : string) (rparts : list string) (fs : gmap string node)
  : result (gmap string node) :=
  let p := mkPath r (rev rparts) in
  match os_mkdir p fs with
  | Ok fs' => Ok fs'
  | Raise (OSError FileNotFoundError f) =>
      match rparts with
      | [] => Raise (OSError FileNotFoundError f)
      | _ :: rparts' =>
          match mkdir_parents r rparts' fs with
          | Ok fs1 => mkdir_exist_ok p fs1
          | Raise e => Raise e
          end
      end
  | Raise e => if is_dir fs p then Ok fs else Raise e
  end.

Definition mkdir (p : Path) (fs : gmap string node) : result (gmap string node) :=
  mkdir_parents (root p) (rev (parts p)) fs.

(** The filesystem that [Path.mkdir(parents=True, exist_ok=True)] leaves,
    whether it succeeds or raises: the directories made above the path
    before a failure stay. *)
Fixpoint mkdir_parents_left (r : string) (rparts : list string) (fs : gmap string node)
  : gmap string node :=
  let p := mkPath r (rev rparts) in
  match os_mkdir p fs with
  | Ok fs' => fs'
  | Raise (OSError FileNotFoundError _) =>
      match rparts with
      | [] => fs
      | _ :: rparts' =>
          let fs1 := mkdir_parents_left r rparts' fs in
          match mkdir_parents r rparts' fs with
          | Ok _ =>
              match mkdir_exist_ok p fs1 with
              | Ok fs2 => fs2
              | Raise _ => fs1
              end
          | Raise _ => fs1
          end
      end
  | Raise _ => fs
  end.

Definition mkdir_left (p : Path) (fs : gmap string node) : gmap string node :=
  mkdir_parents_left (root p) (rev (parts p)) fs.

(** [p.stat().st_size]; the size reported for a directory is the usual
    block size. *)
Definition st_size (p : Path) (fs : gmap string node) : result Z :=
  match fs !! str p with
  | Some (File b) => Ok (Z.of_nat (length b))
  | Some Dir => Ok 4096
  | None => if is_dir fs p then Ok 4096 else Raise (OSError FileNotFoundError (str p))
  end.

(** [open(p, "a")]: the file is created when missing. *)
Definition open_append (p : Path) (fs : gmap string node) : result (gmap string node) :=
  match fs !! str p with
  | Some (File _) => Ok fs
  | Some Dir => Raise (OSError IsADirectoryError (str p))
  | None =>
      match parts p with
      | [] => Raise (OSError IsADirectoryError (str p))
      | _ => if is_dir fs (parent p) then Ok (<[str p := File []]> fs)
             else Raise (OSError FileNotFoundError (str p))
      end
  end.

(** [open(p, "rb").read()] *)
Definition read_bytes (p : Path) (fs : gmap string node) : result (list Byte.byte) :=
  match fs !! str p with
  | Some (File b) => Ok b
  | Some Dir => Raise (OSError IsADirectoryError (str p))
  | None => Raise (OSError (if is_dir fs p then IsADirectoryError else FileNotFoundError) (str p))
  end.

End Os.
Export Os.


(** ** The [logging] library, as far as the module uses it *)

Module Logging.

Definition DEBUG : Z := 10.
Definition INFO : Z := 20.
Definition ERROR : Z := 40.

Record Formatter := mkFormatter { fmt : string; datefmt : string }.

(** Where a handler writes. *)
Inductive Sink :=
| RotatingFile (filename : string) (maxBytes backupCount : Z) (encoding : string)
| Stream_stderr.

Record Handler := mkHandler {
  h_sink : Sink;
  h_level : Z;
  h_formatter : option Formatter }.

Definition h_setLevel (level : Z) (h : Handler) : Handler :=
  {| h_sink := h_sink h; h_level := level; h_formatter := h_formatter h |}.
Definition h_setFormatter (f : Formatter) (h : Handler) : Handler :=
  {| h_sink := h_sink h; h_level := h_level h; h_formatter := Some f |}.

(** A logger object is known by its name: [logging.getLogger(name)] gives
    the same object for the same name. *)
Inductive LoggerRef := getLogger (name : string).

(** One call of [debug], [info] or [exception] on a logger. *)
Record LogCall := mkLogCall {
  lc_level : Z;
  lc_msg : string;
  lc_args : list pyval;
  lc_exc_info : option exn }.

#[global] Instance Formatter_eq_dec : EqDecision Formatter.
Proof. solve_decision. Defined.
#[global] Instance Sink_eq_dec : EqDecision Sink.
Proof. solve_decision. Defined.
#[global] Instance Handler_eq_dec : EqDecision Handler.
Proof. solve_decision. Defined.
#[global] Instance LoggerRef_eq_dec : EqDecision LoggerRef.
Proof. solve_decision. Defined.
#[global] Instance LogCall_eq_dec : EqDecision LogCall.
Proof. solve_decision. Defined.

(** [Logger.callHandlers]: a record of level [levelno] is written once by
    every attached handler whose level lets it through. *)
Definition callHandlers (hs : list Handler) (levelno : Z) : list Sink :=
  h_sink <$> List.filter (fun h => h_level h <=? levelno) hs.

End Logging.
Export Logging.

(** ** The SDK client

    boto3's S3 client is an external capability: each method is a function
    of its arguments that gives a value or raises.  A paginator gives the
    pages it yields before it is exhausted, or before it fails. *)

Record Page := mkPage { Contents : option (list (gmap string pyval)) }.

Record GetObjectOutput := mkGetObjectOutput { Body_read : result (list Byte.byte) }.

Record Boto3Client := mkBoto3Client {
  paginate : string -> string -> Z -> string -> list Page * option exn;
  client_download_file :
    string -> string -> string -> gmap string node -> result (gmap string node);
  get_object : string -> string -> result GetObjectOutput;
  generate_presigned_url : string -> string -> string -> Z -> result string;
  head_object : string -> string -> result (gmap string pyval) }.

Inductive SdkCall :=
| Call_paginate (Bucket Prefix : string) (MaxKeys : Z) (Delimiter : string)
| Call_download_file (Bucket Key Filename : string)
| Call_get_object (Bucket Key : string)
| Call_generate_presigned_url (ClientMethod Bucket Key : string) (ExpiresIn : Z)
| Call_head_object (Bucket Key : string).

(** What happened at the SDK boundary: a method was called, or a call
    raised. *)
Inductive SdkEvent :=
| Called (c : SdkCall)
| Raised (e : exn).

#[global] Instance SdkCall_eq_dec : EqDecision SdkCall.
Proof. solve_decision. Defined.
#[global] Instance SdkEvent_eq_dec : EqDecision SdkEvent.
Proof. solve_decision. Defined.

(** ** The state of the process *)

Record world := mkWorld {
  fs : gmap string node;
  environ : gmap string string;
  (** the logger named "s3_client" in the registry of [logging] *)
  level : Z;
  handlers : list Handler;
  (** the module global [_logger] *)
  _logger : option LoggerRef;
  (** the calls every logger has received, oldest first *)
  log_calls : list (LoggerRef * LogCall);
  (** the events at the SDK boundary, oldest first *)
  sdk_trace : list SdkEvent }.

Definition set_fs (f : gmap string node) (w : world) : world :=
  mkWorld f (environ w) (level w) (handlers w) (_logger w) (log_calls w) (sdk_trace w).
Definition set_level (l : Z) (w : world) : world :=
  mkWorld (fs w) (environ w) l (handlers w) (_logger w) (log_calls w) (sdk_trace w).
Definition set_handlers (hs : list Handler) (w : world) : world :=
  mkWorld (fs w) (environ w) (level w) hs (_logger w) (log_calls w) (sdk_trace w).
Definition set__logger (l : option LoggerRef) (w : world) : world :=
  mkWorld (fs w) (environ w) (level w) (handlers w) l (log_calls w) (sdk_trace w).
Definition add_log_call (c : LoggerRef * LogCall) (w : world) : world :=
  mkWorld (fs w) (environ w) (level w) (handlers w) (_logger w) (log_calls w ++ [c]) (sdk_trace w).
Definition add_sdk_event (e : SdkEvent) (w : world) : world :=
  mkWorld (fs w) (environ w) (level w) (handlers w) (_logger w) (log_calls w) (sdk_trace w ++ [e]).

(** ** State and exceptions *)

Definition M (A : Type) : Type := world -> result A * world.

Definition ret {A} (a : A) : M A := fun w => (Ok a, w).
Definition raise {A} (e : exn) : M A := fun w => (Raise e, w).
Definition bind {A B} (m : M A) (k : A -> M B) : M B :=
  fun w => match m w with
           | (Ok a, w') => k a w'
           | (Raise e, w') => (Raise e, w')
           end.

Declare Scope py_scope.
Delimit Scope py_scope with py.
Notation "x <- m ;; k" := (bind m (fun x => k))
  (at level 100, m at next level, right associativity) : py_scope.
Notation "m ;; k" := (bind m (fun _ => k))
  (at level 100, right associativity) : py_scope.
Open Scope py_scope.

(** [try: body except ClientError as e: handler e]; any other exception
    goes through. *)
Definition try_except_ClientError {A} (body : M A) (handler : exn -> M A) : M A :=
  fun w => match body w with
           | (Raise e, w') => if is_ClientError e then handler e w' else (Raise e, w')
           | ok => ok
           end.

Definition lift_result {A} (r : result A) : M A := fun w => (r, w).

(** An operation of the operating system on the filesystem of the world;
    [left] tells the filesystem that the operation leaves when it fails. *)
Definition os_do (f : gmap string node -> result (gmap string node))
    (left : gmap string node -> gmap string node) : M unit :=
  fun w => match f (fs w) with
           | Ok fs' => (Ok tt, set_fs fs' w)
           | Raise e => (Raise e, set_fs (left (fs w)) w)
           end.

Definition os_get {A} (f : gmap string node -> result A) : M A :=
  fun w => (f (fs w), w).

(** A call on a logger is recorded among the calls the loggers received.
    What the handlers of the logger then write, and the files they write
    to, rotate and delete, are not part of [fs]: [callHandlers] tells which
    sinks a record reaches. *)
Definition log_call (l : LoggerRef) (lvl : Z) (msg : string) (args : list pyval)
    (exc : option exn) : M unit :=
  fun w => (Ok tt, add_log_call (l, mkLogCall lvl msg args exc) w).

Definition debug (l : LoggerRef) msg args : M unit := log_call l DEBUG msg args None.
Definition info (l : LoggerRef) msg args : M unit := log_call l INFO msg args None.
(** [Logger.exception]: level ERROR, with the exception being handled. *)
Definition exception (l : LoggerRef) (e : exn) msg args : M unit :=
  log_call l ERROR msg args (Some e).

Definition sdk_event (e : SdkEvent) : M unit := fun w => (Ok tt, add_sdk_event e w).

(** A call of an SDK method whose outcome is [r]. *)
Definition sdk_call {A} (c : SdkCall) (r : result A) : M A :=
  sdk_event (Called c) ;;
  match r with
  | Ok a => ret a
  | Raise e => sdk_event (Raised e) ;; raise e
  end.

(** ** The module [s3_client] *)

Section s3_client.

(** [Path(__file__).resolve().parent], the directory of the module. *)
Variable module_dir : Path.

(** [boto3.Session] called with the session keyword arguments, then its
    [client("s3", ...)] called with the client keyword arguments. *)
Variable boto3_client :
  gmap string pyval -> gmap string pyval -> result Boto3Client.

Definition LOG_DIR : Path := module_dir // Path_of "logs".
Definition LOG_FILE : Path := LOG_DIR // Path_of "s3_client.log".
Definition LOG_FORMAT : string := "%(asctime)s | %(levelname)-8s | %(name)s | %(message)s".
Definition DATE_FORMAT : string := "%Y-%m-%d %H:%M:%S".

(** [logger.addHandler(h)] for a handler object that was just created (a
    new object is never among the attached ones). *)
Definition addHandler (h : Handler) : M unit :=
  fun w => (Ok tt, set_handlers (handlers w ++ [h]) w).

(** [RotatingFileHandler(filename, maxBytes=.., backupCount=.., encoding=..)]
    opens its file for appending when it is created. *)
Definition RotatingFileHandler (filename : Path) (maxBytes backupCount : Z)
    (encoding : string) : M Handler :=
  os_do (open_append filename) (fun fs => fs) ;;
  ret (mkHandler (RotatingFile (str filename) maxBytes backupCount encoding) 0 None).

Definition StreamHandler : M Handler := ret (mkHandler Stream_stderr 0 None).

Definition setup_logging (level : Z) (log_to_file log_to_console : bool)
    (max_bytes backup_count : Z) : M LoggerRef :=
  let logger := getLogger "s3_client" in
  (fun w => (Ok tt, set_level level w)) ;;
  (fun w => (Ok tt, set_handlers [] w)) ;;
  let formatter := mkFormatter LOG_FORMAT DATE_FORMAT in
  (if log_to_file then
     os_do (mkdir LOG_DIR) (mkdir_left LOG_DIR) ;;
     file_handler <- RotatingFileHandler LOG_FILE max_bytes backup_count "utf-8" ;;
     addHandler (h_setFormatter formatter (h_setLevel level file_handler))
   else ret tt) ;;
  (if log_to_console then
     console_handler <- StreamHandler ;;
     addHandler (h_setFormatter formatter (h_setLevel level console_handler))
   else ret tt) ;;
  ret logger.

(** The handlers a call of [setup_logging] is meant to leave on the
    logger: the file handler, then the console handler, each when asked
    for. *)
Definition attached (level : Z) (log_to_file log_to_console : bool)
    (max_bytes backup_count : Z) : list Handler :=
  let formatter := mkFormatter LOG_FORMAT DATE_FORMAT in
  (if log_to_file then
     [mkHandler (RotatingFile (str LOG_FILE) max_bytes backup_count "utf-8")
        level (Some formatter)]
   else [])
  ++ (if log_to_console then [mkHandler Stream_stderr level (Some formatter)] else []).

(** [setup_logging()] with every argument left to its default. *)
Definition setup_logging_default : M LoggerRef :=
  setup_logging INFO true true (5 * 1024 * 1024) 3.

Definition get_logger : M LoggerRef :=
  fun w =>
    match _logger w with
    | None =>
        (l <- setup_logging_default ;;
         (fun w' => (Ok tt, set__logger (Some l) w')) ;;
         ret l) w
    | Some l => (Ok l, w)
    end.

Record S3Client := mkS3Client {
  bucket : string;
  log : LoggerRef;
  session_kwargs : gmap string pyval;
  client_kwargs : gmap string pyval;
  _client : Boto3Client }.

(** [os.getenv(name)] and [os.getenv(name, default)] *)
Definition getenv (env : gmap string string) (name : string) : option string :=
  env !! name.
Definition getenv_default (env : gmap string string) (name default : string)
  : option string :=
  Some (match env !! name with Some v => v | None => default end).

(** Lines 97 to 100: each optional argument, or else the environment. *)
Record Resolved := mkResolved {
  r_region_name : option string;
  r_aws_access_key_id : option string;
  r_aws_secret_access_key : option string;
  r_endpoint_url : option string }.

Definition resolve (env : gmap string string)
    (region_name aws_access_key_id aws_secret_access_key endpoint_url : option string)
  : Resolved :=
  {| r_region_name := py_or region_name (getenv_default env "AWS_REGION" "ru-central1");
     r_aws_access_key_id := py_or aws_access_key_id (getenv env "AWS_ACCESS_KEY_ID");
     r_aws_secret_access_key :=
       py_or aws_secret_access_key (getenv env "AWS_SECRET_ACCESS_KEY");
     r_endpoint_url := py_or endpoint_url (getenv env "AWS_ENDPOINT_URL") |}.

(** Lines 102 to 105 *)
Definition make_session_kwargs (r : Resolved) : gmap string pyval :=
  let session_kwargs : gmap string pyval :=
    {[ "region_name" := of_optional (r_region_name r) ]} in
  if truthy (r_aws_access_key_id r) && truthy (r_aws_secret_access_key r) then
    <[ "aws_secret_access_key" := of_optional (r_aws_secret_access_key r) ]>
      (<[ "aws_access_key_id" := of_optional (r_aws_access_key_id r) ]> session_kwargs)
  else session_kwargs.

(** Lines 108 to 110 *)
Definition make_client_kwargs (r : Resolved) : gmap string pyval :=
  if truthy (r_endpoint_url r) then {[ "endpoint_url" := of_optional (r_endpoint_url r) ]}
  else ∅.

Definition __init__ (bucket : string)
    (region_name aws_access_key_id aws_secret_access_key endpoint_url : option string)
    (logger : option LoggerRef) : M S3Client :=
  log <- match logger with Some l => ret l | None => get_logger end ;;
  env <- (fun w => (Ok (environ w), w)) ;;
  let r := resolve env region_name aws_access_key_id aws_secret_access_key endpoint_url in
  let session_kwargs := make_session_kwargs r in
  let client_kwargs := make_client_kwargs r in
  client <- lift_result (boto3_client session_kwargs client_kwargs) ;;
  info log "S3 клиент инициализирован: bucket=%s, region=%s"
    [PStr bucket; of_optional (r_region_name r)] ;;
  ret (mkS3Client bucket log session_kwargs client_kwargs client).

End s3_client.

(** ** The operations of [S3Client] *)

(** A [str | Path] argument. *)
Inductive PathLike :=
| AsStr (s : string)
| AsPath (p : Path).

(** Truth value of an [Optional[str | Path]]: a [Path] object is always
    true, a string is true unless empty. *)
Definition given (x : option PathLike) : bool :=
  match x with
  | Some (AsStr s) => negb (String.eqb s "")
  | Some (AsPath _) => true
  | None => false
  end.

(** [Path(x)] *)
Definition to_Path (x : option PathLike) : Path :=
  match x with
  | Some (AsStr s) => Path_of s
  | Some (AsPath p) => p
  | None => Path_of ""
  end.

(** One record of the listing, lines 137 to 142. *)
Definition listing_entry (obj : gmap string pyval) : result (gmap string pyval) :=
  match getitem obj "Key" with
  | Ok key =>
      Ok (<[ "ETag" := get obj "ETag" PNone ]>
          (<[ "LastModified" := get obj "LastModified" PNone ]>
           (<[ "Size" := get obj "Size" (PInt 0) ]>
            {[ "Key" := key ]})))
  | Raise e => Raise e
  end.

(** [for obj in page.get("Contents", []): result.append(...)] *)
Fixpoint for_obj (objs res : list (gmap string pyval)) : result (list (gmap string pyval)) :=
  match objs with
  | [] => Ok res
  | obj :: objs' =>
      match listing_entry obj with
      | Ok r => for_obj objs' (res ++ [r])
      | Raise e => Raise e
      end
  end.

(** [for page in paginator.paginate(...)], over the pages that were yielded. *)
Fixpoint for_page (pages : list Page) (res : list (gmap string pyval))
  : result (list (gmap string pyval)) :=
  match pages with
  | [] => Ok res
  | page :: pages' =>
      match for_obj (default [] (Contents page)) res with
      | Ok res' => for_page pages' res'
      | Raise e => Raise e
      end
  end.

(** [delimiter or ""] *)
Definition or_empty (delimiter : option string) : string :=
  default "" (py_or delimiter (Some "")).

Definition list_objects (self : S3Client) (prefix : string) (max_keys : Z)
    (delimiter : option string) : M (list (gmap string pyval)) :=
  debug (log self) "list_objects: prefix=%r, max_keys=%s" [PStr prefix; PInt max_keys] ;;
  try_except_ClientError
    (let Delimiter := or_empty delimiter in
     let '(pages, failure) := paginate (_client self) (bucket self) prefix max_keys Delimiter in
     sdk_event (Called (Call_paginate (bucket self) prefix max_keys Delimiter)) ;;
     res <- lift_result (for_page pages []) ;;
     match failure with
     | Some e => sdk_event (Raised e) ;; raise e
     | None => ret tt
     end ;;
     info (log self) "list_objects: получено записей=%s (prefix=%r)"
       [PInt (Z.of_nat (length res)); PStr prefix] ;;
     ret res)
    (fun e =>
       exception (log self) e "list_objects ошибка: %s" [PExc e] ;;
       raise e).

(** Lines 160 to 164: where the object is written. *)
Definition destination (key : string) (local_path local_dir : option PathLike) : Path :=
  let local_path := if given local_path then Some (to_Path local_path) else None in
  let local_dir := if given local_dir then to_Path local_dir else Path_of "." in
  match local_path with
  | None => local_dir // Path_of (name (Path_of key))
  | Some p => p
  end.

Definition download_file (self : S3Client) (key : string)
    (local_path local_dir : option PathLike) : M Path :=
  let local_path := destination key local_path local_dir in
  os_do (mkdir (parent local_path)) (mkdir_left (parent local_path)) ;;
  info (log self) "download_file: key=%s -> %s" [PStr key; PPath local_path] ;;
  try_except_ClientError
    (fs' <- (fun w =>
               sdk_call (Call_download_file (bucket self) key (str local_path))
                 (client_download_file (_client self) (bucket self) key (str local_path) (fs w))
                 w) ;;
     (fun w => (Ok tt, set_fs fs' w)) ;;
     size <- os_get (st_size local_path) ;;
     info (log self) "download_file: успешно, размер=%s bytes" [PInt size] ;;
     ret local_path)
    (fun e =>
       exception (log self) e "download_file ошибка: key=%s, error=%s" [PStr key; PExc e] ;;
       raise e).

Definition download_file_to_buffer (self : S3Client) (key : string) : M (list Byte.byte) :=
  debug (log self) "download_file_to_buffer: key=%s" [PStr key] ;;
  try_except_ClientError
    (response <- sdk_call (Call_get_object (bucket self) key)
                   (get_object (_client self) (bucket self) key) ;;
     data <- (match Body_read response with
              | Ok data => ret data
              | Raise e => sdk_event (Raised e) ;; raise e
              end) ;;
     info (log self) "download_file_to_buffer: key=%s, размер=%s bytes"
       [PStr key; PInt (Z.of_nat (length data))] ;;
     ret data)
    (fun e =>
       exception (log self) e "download_file_to_buffer ошибка: key=%s, error=%s"
         [PStr key; PExc e] ;;
       raise e).

Definition get_presigned_url (self : S3Client) (key : string) (expiration : Z)
    (method : string) : M string :=
  debug (log self) "get_presigned_url: key=%s, expiration=%s" [PStr key; PInt expiration] ;;
  try_except_ClientError
    (url <- sdk_call (Call_generate_presigned_url method (bucket self) key expiration)
              (generate_presigned_url (_client self) method (bucket self) key expiration) ;;
     info (log self) "get_presigned_url: сгенерирован для key=%s" [PStr key] ;;
     ret url)
    (fun e =>
       exception (log self) e "get_presigned_url ошибка: key=%s, error=%s" [PStr key; PExc e] ;;
       raise e).

Definition get_object_metadata (self : S3Client) (key : string) : M (gmap string pyval) :=
  debug (log self) "get_object_metadata: key=%s" [PStr key] ;;
  try_except_ClientError
    (response <- sdk_call (Call_head_object (bucket self) key)
                   (head_object (_client self) (bucket self) key) ;;
     let meta : gmap string pyval :=
       <[ "ETag" := get response "ETag" PNone ]>
         (<[ "ContentType" := get response "ContentType" PNone ]>
          (<[ "LastModified" := get response "LastModified" PNone ]>
           {[ "ContentLength" := get response "ContentLength" PNone ]})) in
     info (log self) "get_object_metadata: key=%s, size=%s"
       [PStr key; get meta "ContentLength" PNone] ;;
     ret meta)
    (fun e =>
       exception (log self) e "get_object_metadata ошибка: key=%s, error=%s"
         [PStr key; PExc e] ;;
       raise e).

(** The five operations as data, and an operation run for its effects. *)
Inductive Operation :=
| ListObjects (prefix : string) (max_keys : Z) (delimiter : option string)
| DownloadFile (key : string) (local_path local_dir : option PathLike)
| DownloadFileToBuffer (key : string)
| GetPresignedUrl (key : string) (expiration : Z) (method : string)
| GetObjectMetadata (key : string).

Definition discard {A} (m : M A) : M unit := _ <- m ;; ret tt.

Definition run (self : S3Client) (op : Operation) : M unit :=
  match op with
  | ListObjects prefix max_keys delimiter => discard (list_objects self prefix max_keys delimiter)
  | DownloadFile key local_path local_dir => discard (download_file self key local_path local_dir)
  | DownloadFileToBuffer key => discard (download_file_to_buffer self key)
  | GetPresignedUrl key expiration method => discard (get_presigned_url self key expiration method)
  | GetObjectMetadata key => discard (get_object_metadata self key)
  end.

(** ** Reading the traces *)

(** The raw entries of a listing, in page order then entry order. *)
Definition raw_entries (pages : list Page) : list (gmap string pyval) :=
  mjoin ((fun page => default [] (Contents page)) <$> pages).

(** The record the specification describes for a raw entry: the four fields
    and no other, the key as it is, the size or else 0, the date and the
    tag or else [None]. *)
Definition listing_record (obj r : gmap string pyval) : Prop :=
  dom r = {[ "Key"; "Size"; "LastModified"; "ETag" ]}
  /\ r !! "Key" = obj !! "Key"
  /\ r !! "Size" = Some (default (PInt 0) (obj !! "Size"))
  /\ r !! "LastModified" = Some (default PNone (obj !! "LastModified"))
  /\ r !! "ETag" = Some (default PNone (obj !! "ETag")).

(** A backend whose listing only has objects under the prefix it was
    asked for. *)
Definition honours_prefix (c : Boto3Client) : Prop :=
  forall b prefix max_keys delimiter obj,
    obj ∈ raw_entries (fst (paginate c b prefix max_keys delimiter)) ->
    exists k, obj !! "Key" = Some (PStr k) /\ String.prefix prefix k = true.

(** Precedence of an argument over its fallback: a non-empty string that
    was passed is the value used; with nothing passed, or the empty string,
    the fallback is. *)
Definition takes_precedence (arg fallback resolved : option string) : Prop :=
  (forall s, arg = Some s -> s <> "" -> resolved = Some s)
  /\ (arg = None \/ arg = Some "" -> resolved = fallback).

(** A value is present when it is a non-empty string. *)
Definition present (x : option string) : Prop :=
  exists s, x = Some s /\ s <> "".

(** A file can be written at [filename] when the directory above it is
    there and no directory sits at the name itself. *)
Definition writable (fs : gmap string node) (filename : string) : bool :=
  is_dir fs (parent (Path_of filename)) && negb (is_dir fs (Path_of filename)).

(** The backend holds the bytes [data] under [key] of bucket [b]: a get
    gives a body that reads as [data], and a managed download writes [data]
    at the file name it is given whenever a file can be written there. *)
Definition serves (c : Boto3Client) (b key : string) (data : list Byte.byte) : Prop :=
  (exists out, get_object c b key = Ok out /\ Body_read out = Ok data)
  /\ (forall filename fs,
        writable fs filename = true ->
        client_download_file c b key filename fs = Ok (<[filename := File data]> fs)).

(** The exceptions passed to [Logger.exception] among some calls. *)
Definition logged_exceptions (calls : list (LoggerRef * LogCall)) : list exn :=
  omap (fun c => lc_exc_info (snd c)) calls.

Definition is_Called (e : SdkEvent) : bool :=
  match e with Called _ => true | Raised _ => false end.

(** The SDK methods called among some events. *)
Definition calls_made (events : list SdkEvent) : list SdkEvent :=
  List.filter is_Called events.

(** What an operation that ended with [r] left in the traces, [calls]
    being the calls it made on loggers and [events] what happened at the SDK
    boundary: it spoke to its own logger only; it called the SDK at most
    once; an error raised by the SDK is the outcome, as it was raised; a
    [ClientError] that goes out was raised by the SDK and was passed to
    [Logger.exception] in the last call made, and in no other; an error of
    another kind goes out with nothing passed to [Logger.exception], and
    nothing is on success. *)
Definition logged_and_reraised (self : S3Client) (r : result unit)
    (calls : list (LoggerRef * LogCall)) (events : list SdkEvent) : Prop :=
  Forall (fun c => fst c = log self) calls
  /\ (length (calls_made events) <= 1)%nat
  /\ (forall e, Raised e ∈ events -> r = Raise e)
  /\ (forall e, r = Raise e -> is_ClientError e = true ->
        Raised e ∈ events
        /\ exists before msg args,
             calls = (before ++ [(log self, mkLogCall ERROR msg args (Some e))])%list
             /\ logged_exceptions before = [])
  /\ (forall e, r = Raise e -> is_ClientError e = false -> logged_exceptions calls = [])
  /\ (r = Ok tt -> logged_exceptions calls = []).

(** ** A reference backend

    One bucket held in memory, its objects in listing order.  It serves as a
    concrete SDK client on which the operations are run. *)

Module Backend.

Fixpoint find_object (objects : list (string * list Byte.byte)) (key : string)
  : option (list Byte.byte) :=
  match objects with
  | [] => None
  | (k, data) :: objects' => if String.eqb k key then Some data else find_object objects' key
  end.

Definition object_entry (o : string * list Byte.byte) : gmap string pyval :=
  <[ "ETag" := PStr "etag" ]>
    (<[ "LastModified" := PDatetime 0 ]>
     (<[ "Size" := PInt (Z.of_nat (length (snd o))) ]>
      {[ "Key" := PStr (fst o) ]})).

Definition object_head (data : list Byte.byte) : gmap string pyval :=
  <[ "ETag" := PStr "etag" ]>
    (<[ "ContentType" := PStr "binary/octet-stream" ]>
     (<[ "LastModified" := PDatetime 0 ]>
      {[ "ContentLength" := PInt (Z.of_nat (length data)) ]})).

(** All the matching objects come in one page; a page with no match has
    no "Contents". *)
Definition list_page (objects : list (string * list Byte.byte)) (prefix : string) : Page :=
  match List.filter (fun o => String.prefix prefix (fst o)) objects with
  | [] => mkPage None
  | l => mkPage (Some (object_entry <$> l))
  end.

Definition mem_client (bkt : string) (objects : list (string * list Byte.byte))
  : Boto3Client :=
  {| paginate b prefix _ _ :=
       if String.eqb b bkt then ([list_page objects prefix], None)
       else ([], Some (ClientError "NoSuchBucket" "ListObjectsV2"));
     client_download_file b key filename fs :=
       match (if String.eqb b bkt then find_object objects key else None) with
       | Some data =>
           if is_dir fs (Path_of filename) then
             Raise (OSError IsADirectoryError filename)
           else if is_dir fs (parent (Path_of filename)) then
             Ok (<[filename := File data]> fs)
           else Raise (OSError FileNotFoundError filename)
       | None => Raise (ClientError "404" "HeadObject")
       end;
     get_object b key :=
       match (if String.eqb b bkt then find_object objects key else None) with
       | Some data => Ok (mkGetObjectOutput (Ok data))
       | None => Raise (ClientError "NoSuchKey" "GetObject")
       end;
     generate_presigned_url method b key expires :=
       Ok ("https://" ++ b ++ ".s3.amazonaws.com/" ++ key);
     head_object b key :=
       match (if String.eqb b bkt then find_object objects key else None) with
       | Some data => Ok (object_head data)
       | None => Raise (ClientError "404" "HeadObject")
       end |}.

(** A client with no route to the endpoint: every request fails with
    botocore's [EndpointConnectionError], which is not a [ClientError].
    Signing a URL sends no request. *)
Definition unreachable : exn := BotoCoreError "EndpointConnectionError".

Definition offline_client : Boto3Client :=
  {| paginate _ _ _ _ := ([], Some unreachable);
     client_download_file _ _ _ _ := Raise unreachable;
     get_object _ _ := Raise unreachable;
     generate_presigned_url method b key expires :=
       Ok ("https://" ++ b ++ ".s3.amazonaws.com/" ++ key);
     head_object _ _ := Raise unreachable |}.

(** The bucket of the example scenario. *)
Definition test_objects : list (string * list Byte.byte) :=
  [ ("a.txt", [Byte.x68; Byte.x65; Byte.x6c; Byte.x6c; Byte.x6f]);
    ("uploads/b.txt", [Byte.x30; Byte.x31; Byte.x32; Byte.x33; Byte.x34; Byte.x35; Byte.x36; Byte.x37; Byte.x38; Byte.x39]) ].

Definition test_client : S3Client :=
  mkS3Client "test-bucket" (getLogger "s3_client") ∅ ∅
    (mem_client "test-bucket" test_objects).

Definition offline : S3Client :=
  mkS3Client "test-bucket" (getLogger "s3_client") ∅ ∅ offline_client.

(** A listing in three pages: two full entries, a page without
    "Contents", and an entry that only has its key. *)
Definition sparse_pages : list Page :=
  [ mkPage (Some [object_entry ("a.txt", [Byte.x68; Byte.x69]);
                  object_entry ("b.txt", [])]);
    mkPage None;
    mkPage (Some [ {[ "Key" := PStr "c.txt" ]} ]) ].

Definition sparse_client : S3Client :=
  mkS3Client "test-bucket" (getLogger "s3_client") ∅ ∅
    {| paginate _ _ _ _ := (sparse_pages, None);
       client_download_file _ _ _ _ := Raise unreachable;
       get_object _ _ := Raise unreachable;
       generate_presigned_url _ _ _ _ := Raise unreachable;
       head_object _ _ := Raise unreachable |}.

(** boto3 building a client of the test bucket from any arguments. *)
Definition test_boto3 (_ _ : gmap string pyval) : result Boto3Client :=
  Ok (mem_client "test-bucket" test_objects).

(** A process that has just started: nothing on disk, nothing configured. *)
Definition w0 : world := mkWorld ∅ ∅ 0 [] None [] [].

End Backend.


(** ** The callers

    The entry point at the end of [s3_client.py] and [main] of
    [example_usage.py]. *)

Definition WARNING : Z := 30.

Definition warning (l : LoggerRef) msg args : M unit := log_call l WARNING msg args None.
(** [Logger.error]: level ERROR, without an exception attached. *)
Definition error (l : LoggerRef) msg args : M unit := log_call l ERROR msg args None.

(** [try: body except Exception as e: handler e]: every exception of the
    model is an [Exception]. *)
Definition try_except_Exception {A} (body : M A) (handler : exn -> M A) : M A :=
  fun w => match body w with
           | (Raise e, w') => handler e w'
           | ok => ok
           end.

(** [for x in xs: body x] *)
Fixpoint for_each {A} (xs : list A) (body : A -> M unit) : M unit :=
  match xs with
  | [] => ret tt
  | x :: xs' => body x ;; for_each xs' body
  end.

(** [os.getenv("S3_BUCKET") or os.getenv("AWS_BUCKET")] *)
Definition bucket_of_environ (env : gmap string string) : option string :=
  py_or (getenv env "S3_BUCKET") (getenv env "AWS_BUCKET").

Section callers.

Variable module_dir : Path.
Variable boto3_client : gmap string pyval -> gmap string pyval -> result Boto3Client.

(** The block under [if __name__ == "__main__"] of [s3_client.py]. *)
Definition __main__ : M unit :=
  setup_logging module_dir DEBUG true true (5 * 1024 * 1024) 3 ;;
  log <- get_logger module_dir ;;
  env <- (fun w => (Ok (environ w), w)) ;;
  let bucket := bucket_of_environ env in
  if negb (truthy bucket) then
    warning log "Задайте S3_BUCKET или AWS_BUCKET в .env для теста" []
  else
    client <- __init__ module_dir boto3_client (default "" bucket) None None None None None ;;
    try_except_Exception
      (objects <- list_objects client "" 10 None ;;
       info log "Найдено объектов: %s" [PInt (Z.of_nat (length objects))] ;;
       for_each (take 5 objects)
         (fun obj =>
            key <- lift_result (getitem obj "Key") ;;
            size <- lift_result (getitem obj "Size") ;;
            info log "  %s (%s bytes)" [key; size]))
      (fun e => exception log e "Ошибка: %s" [PExc e]).

(** [main] of [example_usage.py]; the flag of the [try] statement tells
    whether its handler returned from the function. *)
Definition main : M unit :=
  setup_logging module_dir INFO true true (5 * 1024 * 1024) 3 ;;
  log <- get_logger module_dir ;;
  env <- (fun w => (Ok (environ w), w)) ;;
  let bucket := bucket_of_environ env in
  if negb (truthy bucket) then
    error log "Укажите S3_BUCKET или AWS_BUCKET в .env" []
  else
    client <- __init__ module_dir boto3_client (default "" bucket) None None None None None ;;
    info log "--- Список объектов ---" [] ;;
    returned <- try_except_Exception
      (objects <- list_objects client "" 20 None ;;
       for_each objects
         (fun obj =>
            key <- lift_result (getitem obj "Key") ;;
            size <- lift_result (getitem obj "Size") ;;
            last_modified <- lift_result (getitem obj "LastModified") ;;
            info log "  %s | %s bytes | %s" [key; size; last_modified]) ;;
       ret false)
      (fun e =>
         exception log e "Ошибка при получении списка: %s" [PExc e] ;;
         ret true) ;;
    if (returned : bool) then ret tt else info log "Готово." [].

End callers.

(** Whether a string has a "/" in it. *)
Fixpoint has_slash (s : string) : bool :=
  match s with
  | EmptyString => false
  | String c s' => Ascii.eqb c slash || has_slash s'
  end.

(** A client whose listing yields one page and then fails as S3 does when
    access is refused. *)
Definition denied_client : Boto3Client :=
  {| paginate _ _ _ _ :=
       ([mkPage (Some [ Backend.object_entry ("a.txt", []) ])],
        Some (ClientError "AccessDenied" "ListObjectsV2"));
     client_download_file _ _ _ _ := Raise (ClientError "AccessDenied" "GetObject");
     get_object _ _ := Raise (ClientError "AccessDenied" "GetObject");
     generate_presigned_url _ _ _ _ := Raise (ClientError "AccessDenied" "GetObject");
     head_object _ _ := Raise (ClientError "AccessDenied" "HeadObject") |}.

(** A path as pathlib makes them: one of the three roots, and components
    that are not empty, not "." and without "/". *)
Definition plain (c : string) : bool := keep_part c && negb (has_slash c).

Definition well_formed (p : Path) : bool :=
  (String.eqb (root p) "" || String.eqb (root p) "/" || String.eqb (root p) "//")
  && forallb plain (parts p).

(** A [str | Path] argument whose [Path], if it is one, is as pathlib makes
    them. *)
Definition well_formed_arg (x : option PathLike) : bool :=
  match x with
  | Some (AsPath p) => well_formed p
  | _ => true
  end.

(** * Properties *)

Open Scope list_scope.

(** ** Paths and the filesystem *)

Example Path_of_nested : Path_of "uploads/2024/b.txt" = mkPath "" ["uploads"; "2024"; "b.txt"].
Proof. reflexivity. Qed.
Example Path_of_normalises : Path_of "/tmp//out/./a.txt" = mkPath "/" ["tmp"; "out"; "a.txt"].
Proof. reflexivity. Qed.
Example Path_of_dot : str (Path_of "") = "." /\ Path_of "" = Path_of ".".
Proof. split; reflexivity. Qed.
Example name_trailing_slash : name (Path_of "uploads/dir/") = "dir".
Proof. reflexivity. Qed.
Example truediv_name : str (Path_of "/tmp/out" // Path_of "a.txt") = "/tmp/out/a.txt".
Proof. reflexivity. Qed.
Example mkdir_creates_ancestors :
  mkdir (Path_of "/tmp/out") ∅ = Ok (<["/tmp/out" := Dir]> (<["/tmp" := Dir]> ∅)).
Proof. reflexivity. Qed.
Example mkdir_file_in_the_way :
  mkdir (Path_of "a/b") {["a" := File []]} = Raise (OSError NotADirectoryError "a/b").
Proof. reflexivity. Qed.
Example mkdir_file_higher_up :
  mkdir (Path_of "/tmp/out/in") {[ "/tmp" := File [] ]}
  = Raise (OSError NotADirectoryError "/tmp/out/in").
Proof. reflexivity. Qed.
Example mkdir_leaves_ancestors :
  mkdir (Path_of "a/b") {[ "a/b" := File [] ]} = Raise (OSError FileExistsError "a/b")
  /\ mkdir_left (Path_of "a/b") {[ "a/b" := File [] ]}
     = <[ "a" := Dir ]> {[ "a/b" := File [] ]}.
Proof. split; reflexivity. Qed.
Example mkdir_existing :
  mkdir (Path_of "a") {["a" := Dir]} = Ok {["a" := Dir]}.
Proof. reflexivity. Qed.

(** ** The example scenario of the specification *)

Example scenario_list :
  fst (list_objects Backend.test_client "uploads/" 1000 None Backend.w0)
  = Ok [Backend.object_entry ("uploads/b.txt", [Byte.x30; Byte.x31; Byte.x32; Byte.x33; Byte.x34; Byte.x35; Byte.x36; Byte.x37; Byte.x38; Byte.x39])].
Proof. vm_compute. reflexivity. Qed.

Example scenario_download :
  let '(r, w) := download_file Backend.test_client "a.txt" None (Some (AsStr "/tmp/out")) Backend.w0 in
  r = Ok (Path_of "/tmp/out/a.txt")
  /\ fs w !! "/tmp/out/a.txt" = Some (File [Byte.x68; Byte.x65; Byte.x6c; Byte.x6c; Byte.x6f]).
Proof. vm_compute. split; reflexivity. Qed.

Example download_needs_the_directory :
  client_download_file (Backend.mem_client "test-bucket" Backend.test_objects)
    "test-bucket" "a.txt" "/tmp/out/a.txt" ∅
  = Raise (OSError FileNotFoundError "/tmp/out/a.txt").
Proof. reflexivity. Qed.

Example key_slash_is_the_current_directory :
  destination "/" None None = Path_of "."
  /\ forall fs, is_dir fs (destination "/" None None) = true.
Proof. split; [reflexivity | intros fs; reflexivity]. Qed.

(** ** Listing *)

Section listing.

Implicit Types (obj r : gmap string pyval) (objs res acc : list (gmap string pyval)).
Implicit Types (pages : list Page).

Lemma listing_entry_Ok obj r :
  listing_entry obj = Ok r ->
  exists k, obj !! "Key" = Some k /\
    r = <[ "ETag" := get obj "ETag" PNone ]>
          (<[ "LastModified" := get obj "LastModified" PNone ]>
           (<[ "Size" := get obj "Size" (PInt 0) ]> {[ "Key" := k ]})).
Proof.
  unfold listing_entry, getitem. destruct (obj !! "Key") as [k|]; [|discriminate].
  intros [= <-]. by exists k.
Qed.

Lemma listing_entry_has_key obj :
  is_Some (obj !! "Key") -> exists r, listing_entry obj = Ok r.
Proof.
  intros [k Hk]. unfold listing_entry, getitem. rewrite Hk. eauto.
Qed.

Lemma get_default obj k d : get obj k d = default d (obj !! k).
Proof. unfold get. by destruct (obj !! k). Qed.

Lemma listing_entry_record obj r :
  listing_entry obj = Ok r -> listing_record obj r.
Proof.
  intros (k & Hk & ->)%listing_entry_Ok. unfold listing_record.
  rewrite !get_default, Hk. split; [|split; [|split; [|split]]].
  - rewrite !dom_insert_L, dom_singleton_L. set_solver.
  - rewrite !lookup_insert_ne by done. by rewrite lookup_singleton_eq.
  - rewrite !lookup_insert_ne by done. by rewrite lookup_insert_eq.
  - rewrite lookup_insert_ne by done. by rewrite lookup_insert_eq.
  - by rewrite lookup_insert_eq.
Qed.

Lemma for_obj_Ok objs : forall acc res,
  for_obj objs acc = Ok res ->
  exists rs, res = acc ++ rs /\ Forall2 (fun obj r => listing_entry obj = Ok r) objs rs.
Proof.
  induction objs as [|obj objs IH]; simpl; intros acc res H.
  - injection H as <-. exists []. by rewrite app_nil_r.
  - destruct (listing_entry obj) as [r|e] eqn:Hr; [|discriminate].
    destruct (IH _ _ H) as (rs & -> & Hrs).
    exists (r :: rs). split; [by rewrite <- app_assoc | by constructor].
Qed.

Lemma for_obj_keys objs : forall acc,
  Forall (fun obj => is_Some (obj !! "Key")) objs ->
  exists res, for_obj objs acc = Ok res.
Proof.
  induction objs as [|obj objs IH]; simpl; intros acc H; [eauto|].
  apply Forall_cons in H as [Hk H].
  destruct (listing_entry_has_key _ Hk) as [r ->]. by apply IH.
Qed.

Lemma for_page_Ok pages : forall acc res,
  for_page pages acc = Ok res ->
  exists rs, res = acc ++ rs
    /\ Forall2 (fun obj r => listing_entry obj = Ok r) (raw_entries pages) rs.
Proof.
  induction pages as [|page pages IH]; simpl; intros acc res H.
  - injection H as <-. exists []. split; [by rewrite app_nil_r | constructor].
  - destruct (for_obj _ acc) as [res1|e] eqn:H1; [|discriminate].
    apply for_obj_Ok in H1 as (rs1 & -> & Hrs1).
    destruct (IH _ _ H) as (rs & -> & Hrs).
    exists (rs1 ++ rs). split; [by rewrite <- app_assoc|].
    unfold raw_entries. simpl. by apply Forall2_app.
Qed.

Lemma for_page_keys pages : forall acc,
  Forall (fun obj => is_Some (obj !! "Key")) (raw_entries pages) ->
  exists res, for_page pages acc = Ok res.
Proof.
  induction pages as [|page pages IH]; simpl; intros acc H; [eauto|].
  unfold raw_entries in H. simpl in H. apply Forall_app in H as [H1 H].
  destruct (for_obj_keys _ acc H1) as [res1 ->]. by apply IH.
Qed.

(** What [list_objects] does when the pagination ends without a failure. *)
Lemma list_objects_complete self prefix max_keys delimiter pages res w :
  paginate (_client self) (bucket self) prefix max_keys (or_empty delimiter) = (pages, None) ->
  for_page pages [] = Ok res ->
  exists w', list_objects self prefix max_keys delimiter w = (Ok res, w').
Proof.
  intros Hp Hr. unfold list_objects, try_except_ClientError, bind, debug, log_call.
  rewrite Hp. unfold sdk_event, lift_result. simpl. rewrite Hr. simpl. eauto.
Qed.

(** When [list_objects] returns, the pagination ended without a failure
    and the result is what the loops built. *)
Lemma list_objects_Ok self prefix max_keys delimiter res w w' :
  list_objects self prefix max_keys delimiter w = (Ok res, w') ->
  exists pages,
    paginate (_client self) (bucket self) prefix max_keys (or_empty delimiter) = (pages, None)
    /\ for_page pages [] = Ok res.
Proof.
  unfold list_objects, try_except_ClientError, bind, debug, log_call.
  destruct (paginate _ _ _ _ _) as [pages failure] eqn:Hp.
  unfold sdk_event, lift_result. simpl.
  destruct (for_page pages []) as [res0|e] eqn:Hr; simpl.
  - destruct failure as [e|]; simpl.
    + destruct (is_ClientError e); simpl; discriminate.
    + intros [= <- _]. eauto.
  - destruct (is_ClientError e); simpl; discriminate.
Qed.

End listing.

(** C2. Whatever the bucket, prefix, [max_keys] and delimiter, when the
    paginator yields the pages [pages] and is exhausted without a failure,
    each raw entry carrying its "Key" as the listing of the backend does,
    [list_objects] returns a list holding, in page order then entry order,
    one record per raw entry; each record has exactly the fields Key, Size,
    LastModified and ETag, and its Size is the raw one or 0 when absent. *)
Theorem list_objects_materialises
    (self : S3Client) (prefix : string) (max_keys : Z) (delimiter : option string)
    (pages : list Page) (w : world) :
  paginate (_client self) (bucket self) prefix max_keys (or_empty delimiter) = (pages, None) ->
  Forall (fun obj => is_Some (obj !! "Key")) (raw_entries pages) ->
  exists res w',
    list_objects self prefix max_keys delimiter w = (Ok res, w')
    /\ Forall2 listing_record (raw_entries pages) res.
Proof.
  intros Hp Hk.
  destruct (for_page_keys pages [] Hk) as [res Hres].
  destruct (list_objects_complete self prefix max_keys delimiter pages res w Hp Hres)
    as [w' Hw'].
  exists res, w'. split; [done|].
  apply for_page_Ok in Hres as (rs & -> & Hrs). simpl.
  eapply Forall2_impl; [exact Hrs|]. intros obj r. apply listing_entry_record.
Qed.

Lemma list_objects_materialises_witness :
  exists res w',
    list_objects Backend.sparse_client "" 1000 None Backend.w0 = (Ok res, w')
    /\ Forall2 listing_record (raw_entries Backend.sparse_pages) res.
Proof.
  apply (list_objects_materialises Backend.sparse_client "" 1000 None Backend.sparse_pages).
  - reflexivity.
  - repeat constructor; by eexists.
Defined.

(** C10. In every listing that [list_objects] returns, only the size of a
    raw entry has a default: the record of an entry without "Size" has
    Size 0, while the record of an entry without "LastModified" or without
    "ETag" has [None] in that field. *)
Theorem list_objects_only_size_defaulted
    (self : S3Client) (prefix : string) (max_keys : Z) (delimiter : option string)
    (res : list (gmap string pyval)) (w w' : world) :
  list_objects self prefix max_keys delimiter w = (Ok res, w') ->
  Forall2
    (fun obj r =>
       (obj !! "Size" = None -> r !! "Size" = Some (PInt 0))
       /\ (obj !! "LastModified" = None -> r !! "LastModified" = Some PNone)
       /\ (obj !! "ETag" = None -> r !! "ETag" = Some PNone))
    (raw_entries
       (fst (paginate (_client self) (bucket self) prefix max_keys (or_empty delimiter))))
    res.
Proof.
  intros (pages & Hp & Hres)%list_objects_Ok. rewrite Hp. simpl.
  apply for_page_Ok in Hres as (rs & -> & Hrs). simpl.
  eapply Forall2_impl; [exact Hrs|]. intros obj r Hr.
  apply listing_entry_record in Hr as (_ & _ & HS & HL & HE).
  rewrite HS, HL, HE. by repeat split; intros ->.
Qed.

Lemma list_objects_only_size_defaulted_witness :
  let res := [ Backend.object_entry ("a.txt", [Byte.x68; Byte.x69]);
               Backend.object_entry ("b.txt", []);
               <[ "ETag" := PNone ]>
                 (<[ "LastModified" := PNone ]>
                  (<[ "Size" := PInt 0 ]> {[ "Key" := PStr "c.txt" ]})) ] in
  Forall2
    (fun obj r =>
       (obj !! "Size" = None -> r !! "Size" = Some (PInt 0))
       /\ (obj !! "LastModified" = None -> r !! "LastModified" = Some PNone)
       /\ (obj !! "ETag" = None -> r !! "ETag" = Some PNone))
    (raw_entries Backend.sparse_pages) res.
Proof.
  intros res.
  apply (list_objects_only_size_defaulted Backend.sparse_client "" 1000 None res Backend.w0
           (snd (list_objects Backend.sparse_client "" 1000 None Backend.w0))).
  vm_compute. reflexivity.
Defined.

(** C8. Over a backend whose paginator only yields objects under the
    prefix it is given, every entry that [list_objects] returns has a key
    that starts with the prefix of the call. *)
Theorem list_objects_keys_under_prefix
    (self : S3Client) (prefix : string) (max_keys : Z) (delimiter : option string)
    (res : list (gmap string pyval)) (w w' : world) :
  honours_prefix (_client self) ->
  list_objects self prefix max_keys delimiter w = (Ok res, w') ->
  Forall (fun r => exists k, r !! "Key" = Some (PStr k) /\ String.prefix prefix k = true) res.
Proof.
  intros Hb (pages & Hp & Hres)%list_objects_Ok.
  apply for_page_Ok in Hres as (rs & -> & Hrs). simpl.
  apply Forall_forall. intros r Hr.
  apply list_elem_of_lookup in Hr as [i Hi].
  destruct (Forall2_lookup_r _ _ _ _ _ Hrs Hi) as (obj & Hobj & Hentry).
  destruct (Hb (bucket self) prefix max_keys (or_empty delimiter) obj) as (k & Hk & Hpre).
  { rewrite Hp. simpl. apply list_elem_of_lookup. eauto. }
  exists k. split; [|done].
  apply listing_entry_record in Hentry as (_ & -> & _). done.
Qed.

Lemma list_page_entries (objects : list (string * list Byte.byte)) (prefix : string) :
  default [] (Contents (Backend.list_page objects prefix))
  = Backend.object_entry <$> List.filter (fun o => String.prefix prefix (fst o)) objects.
Proof.
  unfold Backend.list_page.
  by destruct (List.filter _ objects).
Qed.

(** The reference backend lists under the prefix. *)
Lemma mem_client_honours_prefix (bkt : string) (objects : list (string * list Byte.byte)) :
  honours_prefix (Backend.mem_client bkt objects).
Proof.
  intros b prefix max_keys delimiter obj. simpl.
  destruct (String.eqb b bkt); simpl; [|by intros ?%elem_of_nil].
  unfold raw_entries. simpl. rewrite app_nil_r, list_page_entries.
  intros (o & -> & Ho)%list_elem_of_fmap.
  apply list_elem_of_In, filter_In in Ho as [_ Ho].
  exists (fst o). split; [|done].
  unfold Backend.object_entry. rewrite !lookup_insert_ne by done.
  by rewrite lookup_singleton_eq.
Qed.

Lemma list_objects_keys_under_prefix_witness :
  Forall (fun r => exists k, r !! "Key" = Some (PStr k) /\ String.prefix "uploads/" k = true)
    [Backend.object_entry
       ("uploads/b.txt",
        [Byte.x30; Byte.x31; Byte.x32; Byte.x33; Byte.x34;
         Byte.x35; Byte.x36; Byte.x37; Byte.x38; Byte.x39])].
Proof.
  apply (list_objects_keys_under_prefix Backend.test_client "uploads/" 1000 None _ Backend.w0
           (snd (list_objects Backend.test_client "uploads/" 1000 None Backend.w0))).
  - apply mem_client_honours_prefix.
  - vm_compute. reflexivity.
Defined.

(** ** Construction *)

Lemma truthy_Some (s : string) : s <> "" -> truthy (Some s) = true.
Proof.
  intros Hs. simpl. destruct (String.eqb_spec s ""); [contradiction | reflexivity].
Qed.

Lemma truthy_true (x : option string) :
  truthy x = true -> exists s, x = Some s /\ s <> "".
Proof.
  destruct x as [s|]; simpl; [|discriminate].
  destruct (String.eqb_spec s ""); [discriminate|]. eauto.
Qed.

Lemma py_or_precedence (arg fallback : option string) :
  takes_precedence arg fallback (py_or arg fallback).
Proof.
  split.
  - intros s -> Hs. unfold py_or. by rewrite truthy_Some.
  - by intros [-> | ->].
Qed.

Section construction.

Variable module_dir : Path.
Variable boto3_client : gmap string pyval -> gmap string pyval -> result Boto3Client.

Lemma setup_logging_environ lvl to_file to_console max_bytes backup_count w :
  environ (snd (setup_logging module_dir lvl to_file to_console max_bytes backup_count w))
  = environ w.
Proof.
  unfold setup_logging, bind, RotatingFileHandler, StreamHandler, addHandler, bind, os_do, ret.
  simpl. destruct to_file; simpl.
  - destruct (mkdir _ _); simpl; [|done].
    destruct (open_append _ _); simpl; [|done].
    by destruct to_console.
  - by destruct to_console.
Qed.

Lemma get_logger_environ w : environ (snd (get_logger module_dir w)) = environ w.
Proof.
  unfold get_logger. destruct (_logger w); [done|].
  unfold bind, setup_logging_default.
  pose proof (setup_logging_environ INFO true true (5 * 1024 * 1024) 3 w) as H.
  destruct (setup_logging _ _ _ _ _ _ w) as [[l|e] w1]; simpl in *; done.
Qed.

(** A construction that succeeds handed boto3 the keyword arguments made
    from the resolved values, and keeps what it was given. *)
Lemma __init___Ok bkt region akid secret endpoint logger w self w' :
  __init__ module_dir boto3_client bkt region akid secret endpoint logger w = (Ok self, w') ->
  let r := resolve (environ w) region akid secret endpoint in
  bucket self = bkt
  /\ session_kwargs self = make_session_kwargs r
  /\ client_kwargs self = make_client_kwargs r
  /\ boto3_client (make_session_kwargs r) (make_client_kwargs r) = Ok (_client self).
Proof.
  unfold __init__, bind at 1.
  assert (exists rl w1,
    match logger with Some l => ret l | None => get_logger module_dir end w = (rl, w1)
    /\ environ w1 = environ w) as (rl & w1 & -> & Henv).
  { destruct logger as [l|].
    - by exists (Ok l), w.
    - pose proof (get_logger_environ w).
      destruct (get_logger module_dir w) as [rl w1]. by exists rl, w1. }
  destruct rl as [l|e]; [|discriminate].
  unfold bind, lift_result, info, log_call, ret. simpl. rewrite Henv.
  destruct (boto3_client _ _) as [c|e] eqn:Hc; [|discriminate].
  by intros [= <- _].
Qed.

End construction.

Lemma truthy_present (x : option string) : truthy x = true <-> present x.
Proof.
  split; [apply truthy_true|]. intros (s & -> & Hs). by apply truthy_Some.
Qed.

(** C7, as amended. At construction, each of region, access key, secret key
    and endpoint resolves to the argument when it was passed as a non-empty
    string, and to the value of the environment (for the region, of
    AWS_REGION or else "ru-central1") when it was left unset or passed as
    the empty string; a construction that succeeds built the SDK client
    from keyword arguments that carry the resolved region, and the resolved
    endpoint when there is one. *)
Theorem configuration_precedence
    (module_dir : Path)
    (boto3_client : gmap string pyval -> gmap string pyval -> result Boto3Client)
    (bkt : string) (region akid secret endpoint : option string)
    (logger : option LoggerRef) (w : world) :
  let env := environ w in
  let r := resolve env region akid secret endpoint in
  takes_precedence region (getenv_default env "AWS_REGION" "ru-central1") (r_region_name r)
  /\ takes_precedence akid (getenv env "AWS_ACCESS_KEY_ID") (r_aws_access_key_id r)
  /\ takes_precedence secret (getenv env "AWS_SECRET_ACCESS_KEY") (r_aws_secret_access_key r)
  /\ takes_precedence endpoint (getenv env "AWS_ENDPOINT_URL") (r_endpoint_url r)
  /\ forall self w',
       __init__ module_dir boto3_client bkt region akid secret endpoint logger w = (Ok self, w') ->
       boto3_client (session_kwargs self) (client_kwargs self) = Ok (_client self)
       /\ session_kwargs self !! "region_name" = Some (of_optional (r_region_name r))
       /\ client_kwargs self !! "endpoint_url"
          = (if truthy (r_endpoint_url r) then Some (of_optional (r_endpoint_url r)) else None).
Proof.
  intros env r. repeat (split; [apply py_or_precedence|]).
  intros self w' H. apply __init___Ok in H as (_ & Hs & Hc & Hb).
  fold env in Hs, Hc, Hb. fold r in Hs, Hc, Hb.
  rewrite Hs, Hc. split; [done|]. split.
  - unfold make_session_kwargs. destruct (_ && _).
    + rewrite !lookup_insert_ne by done. by rewrite lookup_singleton_eq.
    + by rewrite lookup_singleton_eq.
  - unfold make_client_kwargs. destruct (truthy _).
    + by rewrite lookup_singleton_eq.
    + by rewrite lookup_empty.
Qed.

Lemma configuration_precedence_witness :
  r_region_name (resolve {[ "AWS_REGION" := "us-east-1" ]}
                   (Some "eu-west-1") None None (Some "")) = Some "eu-west-1"
  /\ r_endpoint_url (resolve {[ "AWS_REGION" := "us-east-1" ]}
                      (Some "eu-west-1") None None (Some "")) = None.
Proof.
  pose proof (configuration_precedence (Path_of "/srv/app") Backend.test_boto3 "test-bucket"
                (Some "eu-west-1") None None (Some "") (Some (getLogger "app"))
                (mkWorld ∅ {[ "AWS_REGION" := "us-east-1" ]} 0 [] None [] []))
    as ((Hregion & _) & _ & _ & (_ & Hendpoint) & _).
  split.
  - apply (Hregion "eu-west-1"); [reflexivity | discriminate].
  - apply Hendpoint. right. reflexivity.
Defined.

(** The claim C7 read to the letter fails: a region and an endpoint passed
    as the empty string are not the values used, the environment is. *)
Lemma explicit_empty_argument_not_used :
  let env : gmap string string :=
    <[ "AWS_ENDPOINT_URL" := "https://storage.yandexcloud.net" ]>
      {[ "AWS_REGION" := "us-east-1" ]} in
  let r := resolve env (Some "") None None (Some "") in
  r_region_name r = Some "us-east-1" /\ r_region_name r <> Some ""
  /\ r_endpoint_url r = Some "https://storage.yandexcloud.net" /\ r_endpoint_url r <> Some "".
Proof. vm_compute. repeat split; discriminate. Qed.

(** C9. At construction, the access key and the secret key reach the SDK
    session only as a pair: when both are present after the fallback to the
    environment, both are forwarded with their resolved values; when either
    is missing, so when exactly one was supplied, neither is forwarded. *)
Theorem credentials_forwarded_as_a_pair
    (module_dir : Path)
    (boto3_client : gmap string pyval -> gmap string pyval -> result Boto3Client)
    (bkt : string) (region akid secret endpoint : option string)
    (logger : option LoggerRef) (w : world) (self : S3Client) (w' : world) :
  __init__ module_dir boto3_client bkt region akid secret endpoint logger w = (Ok self, w') ->
  let r := resolve (environ w) region akid secret endpoint in
  boto3_client (session_kwargs self) (client_kwargs self) = Ok (_client self)
  /\ (present (r_aws_access_key_id r) /\ present (r_aws_secret_access_key r) ->
      session_kwargs self !! "aws_access_key_id" = Some (of_optional (r_aws_access_key_id r))
      /\ session_kwargs self !! "aws_secret_access_key"
         = Some (of_optional (r_aws_secret_access_key r)))
  /\ (~ (present (r_aws_access_key_id r) /\ present (r_aws_secret_access_key r)) ->
      session_kwargs self !! "aws_access_key_id" = None
      /\ session_kwargs self !! "aws_secret_access_key" = None).
Proof.
  intros H r. apply __init___Ok in H as (_ & Hs & Hc & Hb). fold r in Hs, Hc, Hb.
  clearbody r. rewrite Hs, Hc. split; [done|]. unfold make_session_kwargs.
  destruct (truthy (r_aws_access_key_id r)) eqn:Ha;
    destruct (truthy (r_aws_secret_access_key r)) eqn:Hk; simpl.
  - split.
    + intros _. split.
      * rewrite lookup_insert_ne by done. by rewrite lookup_insert_eq.
      * by rewrite lookup_insert_eq.
    + intros []. by split; apply truthy_present.
  - split.
    + intros [_ Hp%truthy_present]. congruence.
    + intros _. by rewrite !lookup_singleton_ne.
  - split.
    + intros [Hp%truthy_present _]. congruence.
    + intros _. by rewrite !lookup_singleton_ne.
  - split.
    + intros [Hp%truthy_present _]. congruence.
    + intros _. by rewrite !lookup_singleton_ne.
Qed.

Lemma credentials_forwarded_as_a_pair_witness :
  let self :=
    mkS3Client "test-bucket" (getLogger "app") {[ "region_name" := PStr "ru-central1" ]} ∅
      (Backend.mem_client "test-bucket" Backend.test_objects) in
  session_kwargs self !! "aws_access_key_id" = None
  /\ session_kwargs self !! "aws_secret_access_key" = None.
Proof.
  intros self.
  set (w := mkWorld ∅ {[ "AWS_ACCESS_KEY_ID" := "AKIAEXAMPLE" ]} 0 [] None [] []).
  assert (__init__ (Path_of "/srv/app") Backend.test_boto3 "test-bucket"
            None None None None (Some (getLogger "app")) w
          = (Ok self,
             snd (__init__ (Path_of "/srv/app") Backend.test_boto3 "test-bucket"
                    None None None None (Some (getLogger "app")) w))) as Hinit.
  { vm_compute. reflexivity. }
  destruct (credentials_forwarded_as_a_pair _ _ _ _ _ _ _ _ _ _ _ Hinit) as (_ & _ & Hone).
  apply Hone. intros [_ (s & Hs & _)]. vm_compute in Hs. discriminate.
Defined.

(** ** The logger *)

Section logger.

Variable module_dir : Path.

(** The handlers left by a call depend on its arguments and on whether it
    succeeded, not on the handlers that were attached before. *)
Lemma setup_logging_handlers lvl to_file to_console max_bytes backup_count w :
  handlers (snd (setup_logging module_dir lvl to_file to_console max_bytes backup_count w))
  = match fst (setup_logging module_dir lvl to_file to_console max_bytes backup_count w) with
    | Ok _ => attached module_dir lvl to_file to_console max_bytes backup_count
    | Raise _ => []
    end.
Proof.
  unfold setup_logging, attached, bind, RotatingFileHandler, StreamHandler, addHandler,
    bind, os_do, ret.
  simpl. destruct to_file; simpl.
  - destruct (mkdir _ _); simpl; [|done].
    destruct (open_append _ _); simpl; [|done].
    by destruct to_console.
  - by destruct to_console.
Qed.

(** Whether a call succeeds does not depend on the attached handlers. *)
Lemma setup_logging_outcome lvl to_file to_console max_bytes backup_count hs w :
  fst (setup_logging module_dir lvl to_file to_console max_bytes backup_count
         (set_handlers hs w))
  = fst (setup_logging module_dir lvl to_file to_console max_bytes backup_count w).
Proof.
  unfold setup_logging, bind, RotatingFileHandler, StreamHandler, addHandler,
    bind, os_do, ret.
  simpl. destruct to_file; simpl.
  - destruct (mkdir _ _); simpl; [|done].
    destruct (open_append _ _); simpl; [|done].
    by destruct to_console.
  - by destruct to_console.
Qed.

Lemma attached_sinks_NoDup lvl to_file to_console max_bytes backup_count :
  NoDup (h_sink <$> attached module_dir lvl to_file to_console max_bytes backup_count).
Proof.
  unfold attached. destruct to_file, to_console; simpl;
    repeat (apply NoDup_cons; split;
            [ intros Hin; repeat (inversion Hin as [|? ? ? Hin']; subst; clear Hin;
                                  rename Hin' into Hin) | ]);
    apply NoDup_nil_2.
Qed.

Lemma callHandlers_NoDup hs levelno :
  NoDup (h_sink <$> hs) -> NoDup (callHandlers hs levelno).
Proof.
  unfold callHandlers. induction hs as [|h hs IH]; simpl; [done|].
  intros [Hh Hhs]%NoDup_cons. destruct (h_level h <=? levelno); simpl; [|by apply IH].
  apply NoDup_cons. split; [|by apply IH].
  intros (h' & Heq & Hin)%list_elem_of_fmap. apply Hh.
  apply list_elem_of_fmap. exists h'. split; [done|].
  apply list_elem_of_In. apply list_elem_of_In, filter_In in Hin. tauto.
Qed.

End logger.

(** C5. Whatever was configured by a first call of [setup_logging], a
    second call leaves on the logger exactly the handlers that the same call
    leaves on a logger with none attached: those it was asked for when it
    succeeds, and none of the earlier ones.  No two of them write to the
    same sink, so a record is written at most once to each. *)
Theorem setup_logging_reconfigures
    (module_dir : Path)
    (level1 : Z) (to_file1 to_console1 : bool) (max_bytes1 backup_count1 : Z)
    (level2 : Z) (to_file2 to_console2 : bool) (max_bytes2 backup_count2 : Z)
    (w : world) :
  let w1 := snd (setup_logging module_dir level1 to_file1 to_console1
                   max_bytes1 backup_count1 w) in
  let second := setup_logging module_dir level2 to_file2 to_console2
                  max_bytes2 backup_count2 in
  handlers (snd (second w1)) = handlers (snd (second (set_handlers [] w1)))
  /\ handlers (snd (second w1))
     = match fst (second w1) with
       | Ok _ => attached module_dir level2 to_file2 to_console2 max_bytes2 backup_count2
       | Raise _ => []
       end
  /\ NoDup (h_sink <$> handlers (snd (second w1)))
  /\ forall levelno, NoDup (callHandlers (handlers (snd (second w1))) levelno).
Proof.
  intros w1 second. unfold second.
  rewrite !setup_logging_handlers, setup_logging_outcome.
  split; [done|]. split; [done|].
  assert (NoDup (h_sink <$>
            match fst (setup_logging module_dir level2 to_file2 to_console2
                         max_bytes2 backup_count2 w1) with
            | Ok _ => attached module_dir level2 to_file2 to_console2 max_bytes2 backup_count2
            | Raise _ => []
            end)) as Hnd.
  { destruct (fst _); [apply attached_sinks_NoDup | constructor]. }
  split; [done|]. intros levelno. by apply callHandlers_NoDup.
Qed.

Section default_logger.

Variable module_dir : Path.

(** With a default logger already made, [get_logger] gives it back and
    touches nothing. *)
Lemma get_logger_cached l w :
  _logger w = Some l -> get_logger module_dir w = (Ok l, w).
Proof. intros H. unfold get_logger. by rewrite H. Qed.

(** The default configuration on a filesystem that lets the log
    directory be made and the log file be opened. *)
Lemma setup_logging_default_Ok w fs1 fs2 :
  mkdir (LOG_DIR module_dir) (fs w) = Ok fs1 ->
  open_append (LOG_FILE module_dir) fs1 = Ok fs2 ->
  setup_logging_default module_dir w
  = (Ok (getLogger "s3_client"),
     mkWorld fs2 (environ w) INFO
       (attached module_dir INFO true true (5 * 1024 * 1024) 3)
       (_logger w) (log_calls w) (sdk_trace w)).
Proof.
  intros Hd Hf.
  unfold setup_logging_default, setup_logging, attached, bind, RotatingFileHandler,
    StreamHandler, addHandler, bind, os_do, ret.
  simpl. rewrite Hd. simpl. rewrite Hf. reflexivity.
Qed.

End default_logger.

(** C6. The first call of [get_logger], made while the module has no
    default logger, on a filesystem that lets the log directory be made and
    the log file be opened, configures the logger "s3_client" with the
    default options (level INFO, a rotating file of 5 MB with 3 backups,
    the console) and returns it; every later call returns that same logger
    and changes nothing. *)
Theorem get_logger_singleton
    (module_dir : Path) (w : world) (fs1 fs2 : gmap string node) :
  _logger w = None ->
  mkdir (LOG_DIR module_dir) (fs w) = Ok fs1 ->
  open_append (LOG_FILE module_dir) fs1 = Ok fs2 ->
  exists l w1,
    get_logger module_dir w = (Ok l, w1)
    /\ l = getLogger "s3_client"
    /\ (Ok l, set__logger None w1)
       = setup_logging module_dir INFO true true (5 * 1024 * 1024) 3 w
    /\ level w1 = INFO
    /\ handlers w1 = attached module_dir INFO true true (5 * 1024 * 1024) 3
    /\ _logger w1 = Some l
    /\ get_logger module_dir w1 = (Ok l, w1)
    /\ forall w2, _logger w2 = _logger w1 -> get_logger module_dir w2 = (Ok l, w2).
Proof.
  intros Hnone Hd Hf.
  pose proof (setup_logging_default_Ok module_dir w fs1 fs2 Hd Hf) as Hs.
  eexists _, _. split.
  { unfold get_logger, bind. rewrite Hnone, Hs. reflexivity. }
  split; [done|]. split.
  { unfold setup_logging_default in Hs. simpl. unfold set__logger. simpl.
    rewrite Hnone in Hs. by rewrite Hs. }
  split; [done|]. split; [done|]. split; [done|].
  split; [by apply get_logger_cached|].
  intros w2 H2. by apply get_logger_cached.
Qed.

Lemma get_logger_singleton_witness :
  exists l w1,
    get_logger (Path_of "/srv/app") Backend.w0 = (Ok l, w1)
    /\ handlers w1 = attached (Path_of "/srv/app") INFO true true (5 * 1024 * 1024) 3
    /\ get_logger (Path_of "/srv/app") w1 = (Ok l, w1).
Proof.
  destruct (get_logger_singleton (Path_of "/srv/app") Backend.w0
              (<["/srv/app/logs" := Dir]> (<["/srv/app" := Dir]> (<["/srv" := Dir]> ∅)))
              (<["/srv/app/logs/s3_client.log" := File []]>
                 (<["/srv/app/logs" := Dir]> (<["/srv/app" := Dir]> (<["/srv" := Dir]> ∅)))))
    as (l & w1 & H1 & _ & _ & _ & H2 & _ & H3 & _).
  - reflexivity.
  - vm_compute. reflexivity.
  - vm_compute. reflexivity.
  - exists l, w1. auto.
Defined.

(** ** Directories *)

Section directories.

Implicit Types (p : Path) (fs : gmap string node).

Lemma is_dir_insert p fs :
  parts p <> [] -> is_dir (<[str p := Dir]> fs) p = true.
Proof.
  intros Hp. unfold is_dir. destruct (parts p); [done|]. by rewrite lookup_insert_eq.
Qed.

Lemma os_mkdir_Ok p fs fs' :
  os_mkdir p fs = Ok fs' -> is_dir fs' p = true /\ fs ⊆ fs'.
Proof.
  unfold os_mkdir. destruct (parts p) as [|c l] eqn:Hp; [discriminate|].
  destruct (walk _ _ _ fs); [discriminate|].
  destruct (fs !! str p) eqn:Hl; [discriminate|]. intros [= <-]. split.
  - apply is_dir_insert. by rewrite Hp.
  - by apply insert_subseteq.
Qed.

Lemma mkdir_exist_ok_Ok p fs fs' :
  mkdir_exist_ok p fs = Ok fs' -> is_dir fs' p = true /\ fs ⊆ fs'.
Proof.
  unfold mkdir_exist_ok. destruct (os_mkdir p fs) as [fs0|e] eqn:Hm.
  - intros [= <-]. by apply os_mkdir_Ok.
  - destruct e as [| | |k f]; try destruct k;
      try discriminate; destruct (is_dir fs p) eqn:Hd; try discriminate;
      by intros [= <-].
Qed.

Lemma mkdir_parents_Ok r rparts : forall fs fs',
  mkdir_parents r rparts fs = Ok fs' ->
  is_dir fs' (mkPath r (rev rparts)) = true /\ fs ⊆ fs'.
Proof.
  induction rparts as [|c rparts IH]; intros fs fs'.
  - cbn. by intros [= <-].
  - cbn [mkdir_parents]. destruct (os_mkdir _ fs) as [fs0|e] eqn:Hm.
    + intros [= <-]. by apply os_mkdir_Ok in Hm.
    + destruct e as [| | |k f]; try destruct k;
        try (destruct (is_dir fs _) eqn:Hd; [by intros [= <-] | discriminate]).
      destruct (mkdir_parents r rparts fs) as [fs1|e] eqn:H1; [|discriminate].
      intros [Hd Hsub]%mkdir_exist_ok_Ok. split; [done|].
      apply IH in H1 as [_ H1]. by etrans.
Qed.

(** A [mkdir] that succeeds leaves a directory at the path and keeps
    everything that was there. *)
Lemma mkdir_Ok p fs fs' :
  mkdir p fs = Ok fs' -> is_dir fs' p = true /\ fs ⊆ fs'.
Proof.
  unfold mkdir. intros H%mkdir_parents_Ok. rewrite rev_involutive in H.
  by destruct p.
Qed.

Lemma mkdir_parents_left_Ok r rparts : forall fs fs',
  mkdir_parents r rparts fs = Ok fs' -> mkdir_parents_left r rparts fs = fs'.
Proof.
  induction rparts as [|c rparts IH]; intros fs fs'.
  - cbn. by intros [= <-].
  - cbn [mkdir_parents mkdir_parents_left].
    destruct (os_mkdir _ fs) as [fs0|e] eqn:Hm; [by intros [= <-]|].
    destruct e as [| | |k f]; try destruct k;
      try (destruct (is_dir fs _); [by intros [= <-] | discriminate]).
    destruct (mkdir_parents r rparts fs) as [fs1|e] eqn:H1; [|discriminate].
    rewrite (IH _ _ H1). by intros ->.
Qed.

(** When [mkdir] succeeds, the filesystem it leaves is the one it gives. *)
Lemma mkdir_left_Ok p fs fs' : mkdir p fs = Ok fs' -> mkdir_left p fs = fs'.
Proof. apply mkdir_parents_left_Ok. Qed.

Lemma os_mkdir_raises p fs e : os_mkdir p fs = Raise e -> is_ClientError e = false.
Proof.
  unfold os_mkdir. destruct (parts p); [by intros [= <-]|].
  destruct (walk _ _ _ fs); [by intros [= <-]|].
  destruct (fs !! str p); [by intros [= <-] | discriminate].
Qed.

Lemma mkdir_exist_ok_raises p fs e :
  mkdir_exist_ok p fs = Raise e -> is_ClientError e = false.
Proof.
  unfold mkdir_exist_ok. destruct (os_mkdir p fs) as [fs0|e0] eqn:Hm; [discriminate|].
  apply os_mkdir_raises in Hm.
  destruct e0 as [| | |k f]; simpl in Hm; [done| | |destruct k];
    try (by intros [= <-]); by destruct (is_dir fs p); [|intros [= <-]].
Qed.

Lemma mkdir_parents_raises r rparts : forall fs e,
  mkdir_parents r rparts fs = Raise e -> is_ClientError e = false.
Proof.
  induction rparts as [|c rparts IH]; intros fs e.
  - cbn. discriminate.
  - cbn [mkdir_parents]. destruct (os_mkdir _ fs) as [fs0|e0] eqn:Hm; [discriminate|].
    apply os_mkdir_raises in Hm.
    destruct e0 as [| | |k f]; simpl in Hm; [done| | |destruct k];
      try (by destruct (is_dir fs _); [|intros [= <-]]).
    destruct (mkdir_parents r rparts fs) as [fs1|e1] eqn:H1.
    + apply mkdir_exist_ok_raises.
    + intros [= <-]. by eapply IH.
Qed.

(** [mkdir] only raises errors of the operating system. *)
Lemma mkdir_raises p fs e : mkdir p fs = Raise e -> is_ClientError e = false.
Proof. apply mkdir_parents_raises. Qed.

Lemma st_size_raises p fs e : st_size p fs = Raise e -> is_ClientError e = false.
Proof.
  unfold st_size. destruct (fs !! str p) as [[]|]; try discriminate.
  destruct (is_dir fs p); [discriminate|]. by intros [= <-].
Qed.

End directories.

(** ** Downloads *)

Section downloads.

Variable self : S3Client.
Variables (key : string) (local_path local_dir : option PathLike).

Let dest : Path := destination key local_path local_dir.

(** The directory cannot be made: the error goes out before the SDK is
    called, with what [mkdir] did before it failed. *)
Lemma download_file_mkdir_fails w e :
  mkdir (parent dest) (fs w) = Raise e ->
  download_file self key local_path local_dir w
  = (Raise e, set_fs (mkdir_left (parent dest) (fs w)) w).
Proof.
  intros Hm. unfold download_file, bind at 1, os_do. fold dest. by rewrite Hm.
Qed.

(** The directory is there, the SDK wrote the file: the destination is
    returned. *)
Lemma download_file_succeeds w fs1 fs2 size :
  mkdir (parent dest) (fs w) = Ok fs1 ->
  client_download_file (_client self) (bucket self) key (str dest) fs1 = Ok fs2 ->
  st_size dest fs2 = Ok size ->
  exists w', download_file self key local_path local_dir w = (Ok dest, w') /\ fs w' = fs2.
Proof.
  intros Hm Hc Hs.
  unfold download_file, try_except_ClientError, bind, os_do, os_get, sdk_call, bind,
    sdk_event, info, log_call, ret.
  fold dest. rewrite Hm. simpl. rewrite Hc. simpl. rewrite Hs. simpl. eauto.
Qed.

(** A path was returned: it is the destination, and the SDK wrote under
    the directory that was made for it. *)
Lemma download_file_Ok w p w' :
  download_file self key local_path local_dir w = (Ok p, w') ->
  p = dest
  /\ exists fs1,
       mkdir (parent dest) (fs w) = Ok fs1
       /\ client_download_file (_client self) (bucket self) key (str dest) fs1 = Ok (fs w').
Proof.
  unfold download_file, try_except_ClientError, bind, os_do, os_get, sdk_call, bind,
    sdk_event, info, log_call, raise, exception, log_call, ret.
  fold dest. destruct (mkdir _ _) as [fs1|e] eqn:Hm; simpl; [|discriminate].
  destruct (client_download_file _ _ _ _ _) as [fs2|e] eqn:Hc; simpl.
  - destruct (st_size dest fs2) as [size|e] eqn:Hs; simpl.
    + intros [= <- <-]. eauto.
    + destruct (is_ClientError e); simpl; discriminate.
  - destruct (is_ClientError e); simpl; discriminate.
Qed.

Lemma download_file_to_buffer_succeeds w out data :
  get_object (_client self) (bucket self) key = Ok out ->
  Body_read out = Ok data ->
  exists w', download_file_to_buffer self key w = (Ok data, w').
Proof.
  intros Hg Hb.
  unfold download_file_to_buffer, try_except_ClientError, bind, sdk_call, bind,
    sdk_event, debug, info, log_call, ret.
  simpl. rewrite Hg. simpl. rewrite Hb. simpl. eauto.
Qed.

End downloads.

Lemma destination_local_dir (key : string) (local_path local_dir : option PathLike) :
  given local_path = false ->
  destination key local_path local_dir
  = match local_dir with
    | Some (AsPath d) => d
    | Some (AsStr s) => Path_of s
    | None => Path_of "."
    end // Path_of (name (Path_of key)).
Proof.
  intros Hg. unfold destination. rewrite Hg.
  destruct local_dir as [[s|d]|]; simpl; try done.
  by destruct (String.eqb_spec s "") as [->|].
Qed.

(** C4, as amended. [download_file] takes as destination [local_path] when
    it is a path object or a non-empty string, and otherwise (nothing
    passed, or the empty string) [local_dir], or the current directory
    without one, joined with the last component of the key.  When it
    returns, it returns that destination, and the SDK wrote there after the
    parent directory was made, everything that existed before being kept;
    and it does return the destination whenever that directory can be made,
    the SDK download succeeds and the file can be measured. *)
Theorem download_file_destination
    (self : S3Client) (key : string) (local_path local_dir : option PathLike) (w : world) :
  let dest := destination key local_path local_dir in
  (forall p, local_path = Some (AsPath p) -> dest = p)
  /\ (forall s, local_path = Some (AsStr s) -> s <> "" -> dest = Path_of s)
  /\ (local_path = None \/ local_path = Some (AsStr "") ->
      dest = match local_dir with
             | Some (AsPath d) => d
             | Some (AsStr s) => Path_of s
             | None => Path_of "."
             end // Path_of (name (Path_of key)))
  /\ (forall p w',
        download_file self key local_path local_dir w = (Ok p, w') ->
        p = dest
        /\ exists fs1,
             mkdir (parent dest) (fs w) = Ok fs1
             /\ is_dir fs1 (parent dest) = true
             /\ fs w ⊆ fs1
             /\ client_download_file (_client self) (bucket self) key (str dest) fs1
                = Ok (fs w'))
  /\ (forall fs1 fs2 size,
        mkdir (parent dest) (fs w) = Ok fs1 ->
        client_download_file (_client self) (bucket self) key (str dest) fs1 = Ok fs2 ->
        st_size dest fs2 = Ok size ->
        exists w', download_file self key local_path local_dir w = (Ok dest, w')
                   /\ fs w' = fs2).
Proof.
  intros dest. split; [|split; [|split; [|split]]].
  - by intros p ->.
  - intros s -> Hs. unfold dest, destination. simpl.
    by destruct (String.eqb_spec s "").
  - intros H. apply destination_local_dir. by destruct H as [-> | ->].
  - intros p w' (-> & fs1 & Hm & Hc)%download_file_Ok. split; [done|].
    exists fs1. by destruct (mkdir_Ok _ _ _ Hm).
  - apply download_file_succeeds.
Qed.

(** The claim C4 read to the letter fails: a [local_path] passed as the
    empty string is not the destination. *)
Lemma empty_local_path_not_destination :
  destination "uploads/b.txt" (Some (AsStr "")) (Some (AsStr "/tmp/out"))
  = Path_of "/tmp/out/b.txt"
  /\ destination "uploads/b.txt" (Some (AsStr "")) (Some (AsStr "/tmp/out"))
     <> to_Path (Some (AsStr "")).
Proof. split; [reflexivity | discriminate]. Qed.

Lemma download_file_destination_witness :
  exists w',
    download_file Backend.test_client "a.txt" None (Some (AsStr "/tmp/out")) Backend.w0
    = (Ok (Path_of "/tmp/out/a.txt"), w')
    /\ fs w' = <["/tmp/out/a.txt" := File [Byte.x68; Byte.x65; Byte.x6c; Byte.x6c; Byte.x6f]]>
                 (<["/tmp/out" := Dir]> (<["/tmp" := Dir]> ∅)).
Proof.
  destruct (download_file_destination Backend.test_client "a.txt" None
              (Some (AsStr "/tmp/out")) Backend.w0) as (_ & _ & _ & _ & H).
  apply (H (<["/tmp/out" := Dir]> (<["/tmp" := Dir]> ∅)) _ 5).
  - reflexivity.
  - vm_compute. reflexivity.
  - vm_compute. reflexivity.
Defined.

(** ** Failures *)

Lemma for_obj_raises objs : forall acc e,
  for_obj objs acc = Raise e -> is_ClientError e = false.
Proof.
  induction objs as [|obj objs IH]; simpl; intros acc e; [discriminate|].
  unfold listing_entry at 1, getitem. destruct (obj !! "Key"); [apply IH|].
  by intros [= <-].
Qed.

Lemma for_page_raises pages : forall acc e,
  for_page pages acc = Raise e -> is_ClientError e = false.
Proof.
  induction pages as [|page pages IH]; simpl; intros acc e; [discriminate|].
  destruct (for_obj _ acc) as [res|e0] eqn:H; [apply IH|].
  intros [= <-]. by eapply for_obj_raises.
Qed.

(** The traces of a run that has been computed: what was appended to each,
    then the reading of what was appended. *)
Ltac traces :=
  intros [= <- <-]; simpl; rewrite <- ?app_assoc; simpl;
  eexists _, _;
  split; [first [reflexivity | symmetry; apply app_nil_r]|];
  split; [first [reflexivity | symmetry; apply app_nil_r]|].

Ltac membership H :=
  repeat (apply elem_of_cons in H as [H|H]; [try discriminate H|]);
  try (by apply elem_of_nil in H).

Ltac reading :=
  unfold logged_and_reraised; simpl;
  split; [repeat constructor|];
  split; [lia|];
  split; [let H := fresh in intros ? H; membership H; congruence|];
  split; [let H := fresh in
          intros ? [= <-] H;
          first [ congruence
                | split; [set_solver | by eexists [_], _, _] ]|];
  split; [intros ? [= <-] ?; first [reflexivity | congruence]|];
  first [reflexivity | discriminate | done].

Lemma run_list_objects (self : S3Client) prefix max_keys delimiter w r w' :
  run self (ListObjects prefix max_keys delimiter) w = (r, w') ->
  exists calls events,
    log_calls w' = log_calls w ++ calls
    /\ sdk_trace w' = sdk_trace w ++ events
    /\ logged_and_reraised self r calls events.
Proof.
  unfold run, discard, list_objects, try_except_ClientError, bind, debug, info,
    exception, log_call, sdk_event, lift_result, raise, ret.
  destruct (paginate _ _ _ _ _) as [pages failure]. simpl.
  destruct (for_page pages []) as [res|e] eqn:Hf; simpl.
  - destruct failure as [e|]; simpl.
    + destruct (is_ClientError e) eqn:He; simpl; traces; reading.
    + traces; reading.
  - rewrite (for_page_raises _ _ _ Hf). simpl. traces. pose proof (for_page_raises _ _ _ Hf).
    reading.
Qed.

Lemma run_download_file (self : S3Client) key local_path local_dir w r w' :
  run self (DownloadFile key local_path local_dir) w = (r, w') ->
  exists calls events,
    log_calls w' = log_calls w ++ calls
    /\ sdk_trace w' = sdk_trace w ++ events
    /\ logged_and_reraised self r calls events.
Proof.
  unfold run, discard, download_file, try_except_ClientError, bind, os_do, os_get,
    sdk_call, bind, info, exception, log_call, sdk_event, raise, ret.
  destruct (mkdir _ _) as [fs1|e] eqn:Hm; simpl.
  - destruct (client_download_file _ _ _ _ _) as [fs2|e]; simpl.
    + destruct (st_size _ _) as [size|e] eqn:Hs; simpl.
      * traces; reading.
      * pose proof (st_size_raises _ _ _ Hs) as He. rewrite He. simpl. traces; reading.
    + destruct (is_ClientError e) eqn:He; simpl; traces; reading.
  - pose proof (mkdir_raises _ _ _ Hm). traces; reading.
Qed.

Lemma run_download_file_to_buffer (self : S3Client) key w r w' :
  run self (DownloadFileToBuffer key) w = (r, w') ->
  exists calls events,
    log_calls w' = log_calls w ++ calls
    /\ sdk_trace w' = sdk_trace w ++ events
    /\ logged_and_reraised self r calls events.
Proof.
  unfold run, discard, download_file_to_buffer, try_except_ClientError, bind,
    sdk_call, bind, debug, info, exception, log_call, sdk_event, raise, ret.
  simpl. destruct (get_object _ _ _) as [out|e]; simpl.
  - destruct (Body_read out) as [data|e]; simpl.
    + traces; reading.
    + destruct (is_ClientError e) eqn:He; simpl; traces; reading.
  - destruct (is_ClientError e) eqn:He; simpl; traces; reading.
Qed.

Lemma run_get_presigned_url (self : S3Client) key expiration method w r w' :
  run self (GetPresignedUrl key expiration method) w = (r, w') ->
  exists calls events,
    log_calls w' = log_calls w ++ calls
    /\ sdk_trace w' = sdk_trace w ++ events
    /\ logged_and_reraised self r calls events.
Proof.
  unfold run, discard, get_presigned_url, try_except_ClientError, bind,
    sdk_call, bind, debug, info, exception, log_call, sdk_event, raise, ret.
  simpl. destruct (generate_presigned_url _ _ _ _ _) as [url|e]; simpl.
  - traces; reading.
  - destruct (is_ClientError e) eqn:He; simpl; traces; reading.
Qed.

Lemma run_get_object_metadata (self : S3Client) key w r w' :
  run self (GetObjectMetadata key) w = (r, w') ->
  exists calls events,
    log_calls w' = log_calls w ++ calls
    /\ sdk_trace w' = sdk_trace w ++ events
    /\ logged_and_reraised self r calls events.
Proof.
  unfold run, discard, get_object_metadata, try_except_ClientError, bind,
    sdk_call, bind, debug, info, exception, log_call, sdk_event, raise, ret.
  simpl. destruct (head_object _ _ _) as [response|e]; simpl.
  - traces; reading.
  - destruct (is_ClientError e) eqn:He; simpl; traces; reading.
Qed.

(** C1, as amended. For each of the five operations and whatever the SDK
    does, the operation calls the SDK at most once, and an error raised by
    the SDK goes out of the operation as it was raised, neither translated
    nor absorbed.  When that error is a [ClientError], it was passed to
    [Logger.exception] of the client's logger once, in the last call made
    before it went out; an error of any other kind, a failure of the
    connection among them, goes out with nothing logged for it. *)
Theorem failures_logged_and_reraised
    (self : S3Client) (op : Operation) (w : world) (r : result unit) (w' : world) :
  run self op w = (r, w') ->
  exists calls events,
    log_calls w' = log_calls w ++ calls
    /\ sdk_trace w' = sdk_trace w ++ events
    /\ logged_and_reraised self r calls events.
Proof.
  destruct op.
  - apply run_list_objects.
  - apply run_download_file.
  - apply run_download_file_to_buffer.
  - apply run_get_presigned_url.
  - apply run_get_object_metadata.
Qed.

Lemma failures_logged_and_reraised_witness :
  exists calls events,
    log_calls (snd (run Backend.test_client (DownloadFileToBuffer "missing.txt") Backend.w0))
    = log_calls Backend.w0 ++ calls
    /\ sdk_trace (snd (run Backend.test_client (DownloadFileToBuffer "missing.txt") Backend.w0))
       = sdk_trace Backend.w0 ++ events
    /\ logged_and_reraised Backend.test_client
         (Raise (ClientError "NoSuchKey" "GetObject")) calls events.
Proof.
  apply (failures_logged_and_reraised Backend.test_client
           (DownloadFileToBuffer "missing.txt") Backend.w0).
  vm_compute. reflexivity.
Defined.

(** The claim C1 read to the letter fails: when the endpoint cannot be
    reached, each operation that sends a request lets the error of the SDK
    out without a call to [Logger.exception]. *)
Lemma connection_failure_not_logged :
  Forall
    (fun op =>
       fst (run Backend.offline op Backend.w0) = Raise (BotoCoreError "EndpointConnectionError")
       /\ logged_exceptions (log_calls (snd (run Backend.offline op Backend.w0))) = []
       /\ logged_exceptions (log_calls (snd (run Backend.offline op Backend.w0)))
          <> [BotoCoreError "EndpointConnectionError"])
    [ ListObjects "" 1000 None;
      DownloadFile "a.txt" None None;
      DownloadFileToBuffer "a.txt";
      GetObjectMetadata "a.txt" ].
Proof. repeat constructor; vm_compute; congruence. Qed.


(** * Further properties of the module *)

(** ** Metadata *)

(** X1. When the probe of the SDK answers, [get_object_metadata] returns a
    dictionary with exactly the fields ContentLength, LastModified,
    ContentType and ETag, each with the value of the answer or [None] when
    the answer lacks it; every other field of the answer is dropped. *)
Theorem get_object_metadata_normalises
    (self : S3Client) (key : string) (response : gmap string pyval) (w : world) :
  head_object (_client self) (bucket self) key = Ok response ->
  exists meta w',
    get_object_metadata self key w = (Ok meta, w')
    /\ dom meta = {[ "ContentLength"; "LastModified"; "ContentType"; "ETag" ]}
    /\ forall k, k ∈ dom meta -> meta !! k = Some (default PNone (response !! k)).
Proof.
  intros Hh.
  unfold get_object_metadata, try_except_ClientError, bind, sdk_call, bind,
    debug, info, log_call, sdk_event, ret.
  simpl. rewrite Hh. simpl. eexists _, _. split; [reflexivity|].
  assert (dom (<[ "ETag" := get response "ETag" PNone ]>
                 (<[ "ContentType" := get response "ContentType" PNone ]>
                    (<[ "LastModified" := get response "LastModified" PNone ]>
                       ({[ "ContentLength" := get response "ContentLength" PNone ]}
                        : gmap string pyval))))
          = {[ "ContentLength"; "LastModified"; "ContentType"; "ETag" ]}) as Hdom.
  { rewrite !dom_insert_L, dom_singleton_L. set_solver. }
  split; [exact Hdom|]. intros k. rewrite Hdom, !get_default.
  rewrite !elem_of_union, !elem_of_singleton. intros [[[-> | ->] | ->] | ->].
  - rewrite !lookup_insert_ne by done. by rewrite lookup_singleton_eq.
  - rewrite !lookup_insert_ne by done. by rewrite lookup_insert_eq.
  - rewrite lookup_insert_ne by done. by rewrite lookup_insert_eq.
  - by rewrite lookup_insert_eq.
Qed.

Lemma get_object_metadata_normalises_witness :
  exists meta w',
    get_object_metadata Backend.test_client "a.txt" Backend.w0 = (Ok meta, w')
    /\ dom meta = {[ "ContentLength"; "LastModified"; "ContentType"; "ETag" ]}
    /\ forall k, k ∈ dom meta ->
         meta !! k = Some (default PNone
                             (Backend.object_head
                                [Byte.x68; Byte.x65; Byte.x6c; Byte.x6c; Byte.x6f] !! k)).
Proof.
  apply (get_object_metadata_normalises Backend.test_client "a.txt").
  reflexivity.
Defined.

(** ** What the operations leave alone *)

(** X2. No operation of the client, whether it returns or raises, changes
    the environment, the level or the handlers of the logger, or the
    default logger of the module. *)
Theorem operations_leave_process_state
    (self : S3Client) (op : Operation) (w : world) :
  let w' := snd (run self op w) in
  environ w' = environ w
  /\ level w' = level w
  /\ handlers w' = handlers w
  /\ _logger w' = _logger w.
Proof.
  destruct op; simpl;
    unfold list_objects, download_file, download_file_to_buffer, get_presigned_url,
      get_object_metadata, discard, try_except_ClientError, bind, os_do, os_get,
      lift_result, sdk_call, bind, debug, info, exception, log_call, sdk_event, raise, ret.
  - destruct (paginate _ _ _ _ _) as [pages failure]. simpl.
    destruct (for_page pages []) as [res|e]; simpl.
    + destruct failure as [e|]; simpl; [destruct (is_ClientError e)|]; done.
    + destruct (is_ClientError e); done.
  - destruct (mkdir _ _) as [fs1|e]; simpl; [|done].
    destruct (client_download_file _ _ _ _ _) as [fs2|e]; simpl.
    + destruct (st_size _ _) as [size|e]; simpl; [done|]. destruct (is_ClientError e); done.
    + destruct (is_ClientError e); done.
  - simpl. destruct (get_object _ _ _) as [out|e]; simpl.
    + destruct (Body_read out) as [data|e]; simpl; [done|]. destruct (is_ClientError e); done.
    + destruct (is_ClientError e); done.
  - simpl. destruct (generate_presigned_url _ _ _ _ _) as [url|e]; simpl; [done|].
    destruct (is_ClientError e); done.
  - simpl. destruct (head_object _ _ _) as [response|e]; simpl; [done|].
    destruct (is_ClientError e); done.
Qed.

(** ** Failed downloads *)

(** X3. When the parent directory of the destination cannot be made,
    [download_file] raises the error of the operating system, which is no
    [ClientError], before it logs anything and before it calls the SDK. *)
Theorem download_file_directory_error
    (self : S3Client) (key : string) (local_path local_dir : option PathLike)
    (w : world) (e : exn) :
  mkdir (parent (destination key local_path local_dir)) (fs w) = Raise e ->
  fst (download_file self key local_path local_dir w) = Raise e
  /\ log_calls (snd (download_file self key local_path local_dir w)) = log_calls w
  /\ sdk_trace (snd (download_file self key local_path local_dir w)) = sdk_trace w
  /\ is_ClientError e = false.
Proof.
  intros Hm. rewrite (download_file_mkdir_fails self key local_path local_dir w e Hm).
  repeat split. by eapply mkdir_raises.
Qed.

Lemma download_file_directory_error_witness :
  let w := set_fs {[ "/tmp" := File [] ]} Backend.w0 in
  fst (download_file Backend.test_client "a.txt" None (Some (AsStr "/tmp/out/in")) w)
  = Raise (OSError NotADirectoryError "/tmp/out/in")
  /\ log_calls (snd (download_file Backend.test_client "a.txt" None
                       (Some (AsStr "/tmp/out/in")) w)) = log_calls w
  /\ sdk_trace (snd (download_file Backend.test_client "a.txt" None
                       (Some (AsStr "/tmp/out/in")) w)) = sdk_trace w
  /\ is_ClientError (OSError NotADirectoryError "/tmp/out/in") = false.
Proof.
  intros w.
  apply (download_file_directory_error Backend.test_client "a.txt" None
           (Some (AsStr "/tmp/out/in")) w).
  vm_compute. reflexivity.
Defined.

(** X4. When the SDK fails to download, [download_file] raises the error of
    the SDK and does not undo what it did for the destination: the parent
    directory it made is still a directory. *)
Theorem download_file_failure_keeps_directories
    (self : S3Client) (key : string) (local_path local_dir : option PathLike)
    (w : world) (fs1 : gmap string node) (e : exn) :
  let dest := destination key local_path local_dir in
  mkdir (parent dest) (fs w) = Ok fs1 ->
  client_download_file (_client self) (bucket self) key (str dest) fs1 = Raise e ->
  exists w',
    download_file self key local_path local_dir w = (Raise e, w')
    /\ is_dir (fs w') (parent dest) = true.
Proof.
  intros dest Hm Hc.
  destruct (mkdir_Ok _ _ _ Hm) as [Hd _].
  unfold download_file, try_except_ClientError, bind, os_do, os_get, sdk_call, bind,
    info, exception, log_call, sdk_event, raise, ret.
  fold dest. rewrite Hm. simpl. rewrite Hc. simpl.
  destruct (is_ClientError e); simpl; eexists; (split; [reflexivity|]); done.
Qed.

Lemma download_file_failure_keeps_directories_witness :
  exists w',
    download_file Backend.test_client "missing.txt" None (Some (AsStr "/tmp/out")) Backend.w0
    = (Raise (ClientError "404" "HeadObject"), w')
    /\ is_dir (fs w') (Path_of "/tmp/out") = true.
Proof.
  apply (download_file_failure_keeps_directories Backend.test_client "missing.txt" None
           (Some (AsStr "/tmp/out")) Backend.w0
           (<["/tmp/out" := Dir]> (<["/tmp" := Dir]> ∅))).
  - reflexivity.
  - vm_compute. reflexivity.
Defined.

(** ** Listings that do not come back *)

Lemma for_obj_KeyError objs : forall acc e,
  for_obj objs acc = Raise e -> e = KeyError "Key".
Proof.
  induction objs as [|obj objs IH]; simpl; intros acc e; [discriminate|].
  unfold listing_entry at 1, getitem. destruct (obj !! "Key"); [apply IH|].
  by intros [= <-].
Qed.

Lemma for_page_KeyError pages : forall acc e,
  for_page pages acc = Raise e -> e = KeyError "Key".
Proof.
  induction pages as [|page pages IH]; simpl; intros acc e; [discriminate|].
  destruct (for_obj _ acc) as [res|e0] eqn:H; [apply IH|].
  intros [= <-]. by eapply for_obj_KeyError.
Qed.

(** The loops go through exactly when every raw entry has its key. *)
Lemma for_page_Ok_iff pages acc :
  (exists res, for_page pages acc = Ok res)
  <-> Forall (fun obj => is_Some (obj !! "Key")) (raw_entries pages).
Proof.
  split; [|apply for_page_keys].
  intros [res (rs & _ & Hrs)%for_page_Ok].
  apply Forall_forall. intros obj Hobj.
  apply list_elem_of_lookup in Hobj as [i Hi].
  destruct (Forall2_lookup_l _ _ _ _ _ Hrs Hi) as (r & _ & Hr).
  apply listing_entry_Ok in Hr as (k & Hk & _). by exists k.
Qed.

(** X5. When some raw entry of the pages that were yielded has no "Key",
    [list_objects] raises [KeyError] for "Key": no listing is returned,
    the error is not passed to [Logger.exception], and only the line of
    entry was logged. *)
Theorem list_objects_missing_key
    (self : S3Client) (prefix : string) (max_keys : Z) (delimiter : option string)
    (w : world) (obj : gmap string pyval) :
  obj ∈ raw_entries
          (fst (paginate (_client self) (bucket self) prefix max_keys (or_empty delimiter))) ->
  obj !! "Key" = None ->
  exists w',
    list_objects self prefix max_keys delimiter w = (Raise (KeyError "Key"), w')
    /\ log_calls w'
       = log_calls w
         ++ [(log self,
              mkLogCall DEBUG "list_objects: prefix=%r, max_keys=%s"
                [PStr prefix; PInt max_keys] None)]
    /\ logged_exceptions (log_calls w') = logged_exceptions (log_calls w).
Proof.
  intros Hin Hnone.
  unfold list_objects, try_except_ClientError, bind, debug, info, exception, log_call,
    sdk_event, lift_result, raise, ret.
  destruct (paginate _ _ _ _ _) as [pages failure]. simpl in *.
  destruct (for_page pages []) as [res|e] eqn:Hf.
  - exfalso. assert (is_Some (obj !! "Key")) as [k Hk].
    { assert (exists res, for_page pages [] = Ok res) as H by eauto.
      apply for_page_Ok_iff in H. rewrite Forall_forall in H. by apply H. }
    congruence.
  - apply for_page_KeyError in Hf as ->. simpl. eexists. split; [reflexivity|].
    simpl. split; [done|].
    unfold logged_exceptions. by rewrite omap_app, app_nil_r.
Qed.

Lemma list_objects_missing_key_witness :
  exists w',
    list_objects
      (mkS3Client "test-bucket" (getLogger "s3_client") ∅ ∅
         {| paginate _ _ _ _ :=
              ([mkPage (Some [ {[ "Key" := PStr "a.txt" ]}; {[ "Size" := PInt 3 ]} ])], None);
            client_download_file _ _ _ _ := Raise Backend.unreachable;
            get_object _ _ := Raise Backend.unreachable;
            generate_presigned_url _ _ _ _ := Raise Backend.unreachable;
            head_object _ _ := Raise Backend.unreachable |})
      "" 1000 None Backend.w0
    = (Raise (KeyError "Key"), w')
    /\ log_calls w'
       = log_calls Backend.w0
         ++ [(getLogger "s3_client",
              mkLogCall DEBUG "list_objects: prefix=%r, max_keys=%s"
                [PStr ""; PInt 1000] None)]
    /\ logged_exceptions (log_calls w') = logged_exceptions (log_calls Backend.w0).
Proof.
  apply (list_objects_missing_key
           (mkS3Client "test-bucket" (getLogger "s3_client") ∅ ∅
              {| paginate _ _ _ _ :=
                   ([mkPage (Some [ {[ "Key" := PStr "a.txt" ]}; {[ "Size" := PInt 3 ]} ])],
                    None);
                 client_download_file _ _ _ _ := Raise Backend.unreachable;
                 get_object _ _ := Raise Backend.unreachable;
                 generate_presigned_url _ _ _ _ := Raise Backend.unreachable;
                 head_object _ _ := Raise Backend.unreachable |})
           "" 1000 None Backend.w0 {[ "Size" := PInt 3 ]}).
  - simpl. unfold raw_entries. simpl. set_solver.
  - reflexivity.
Defined.

(** X6. [list_objects] gives all or nothing: it returns a listing exactly
    when the pagination ends without a failure and every raw entry has its
    "Key"; and when the paginator fails after pages whose entries all have
    their key, the error of the paginator is what it raises, the records
    built so far being dropped. *)
Theorem list_objects_all_or_nothing
    (self : S3Client) (prefix : string) (max_keys : Z) (delimiter : option string)
    (w : world) :
  let listing := paginate (_client self) (bucket self) prefix max_keys (or_empty delimiter) in
  ((exists res w', list_objects self prefix max_keys delimiter w = (Ok res, w'))
   <-> snd listing = None
       /\ Forall (fun obj => is_Some (obj !! "Key")) (raw_entries (fst listing)))
  /\ (forall e,
        snd listing = Some e ->
        Forall (fun obj => is_Some (obj !! "Key")) (raw_entries (fst listing)) ->
        fst (list_objects self prefix max_keys delimiter w) = Raise e).
Proof.
  intros listing. split; [split|].
  - intros (res & w' & (pages & Hp & Hres)%list_objects_Ok).
    unfold listing. rewrite Hp. simpl. split; [done|].
    apply (for_page_Ok_iff pages []). eauto.
  - intros [Hnone Hkeys].
    apply (for_page_Ok_iff _ []) in Hkeys as [res Hres].
    destruct (list_objects_complete self prefix max_keys delimiter (fst listing) res w)
      as [w' Hw']; [|done|eauto].
    unfold listing in *. by destruct (paginate _ _ _ _ _) as [pages failure]; simpl in *; subst.
  - intros e He Hkeys. apply (for_page_Ok_iff _ []) in Hkeys as [res Hres].
    unfold list_objects, try_except_ClientError, bind, debug, info, exception, log_call,
      sdk_event, lift_result, raise, ret.
    unfold listing in *. destruct (paginate _ _ _ _ _) as [pages failure]. simpl in *.
    subst failure. rewrite Hres. simpl. by destruct (is_ClientError e).
Qed.

Lemma list_objects_all_or_nothing_witness :
  fst (list_objects
         (mkS3Client "test-bucket" (getLogger "s3_client") ∅ ∅
            {| paginate _ _ _ _ :=
                 ([mkPage (Some [ {[ "Key" := PStr "a.txt" ]} ])],
                  Some (ClientError "SlowDown" "ListObjectsV2"));
               client_download_file _ _ _ _ := Raise Backend.unreachable;
               get_object _ _ := Raise Backend.unreachable;
               generate_presigned_url _ _ _ _ := Raise Backend.unreachable;
               head_object _ _ := Raise Backend.unreachable |})
         "" 1000 None Backend.w0)
  = Raise (ClientError "SlowDown" "ListObjectsV2").
Proof.
  apply (list_objects_all_or_nothing
           (mkS3Client "test-bucket" (getLogger "s3_client") ∅ ∅
              {| paginate _ _ _ _ :=
                   ([mkPage (Some [ {[ "Key" := PStr "a.txt" ]} ])],
                    Some (ClientError "SlowDown" "ListObjectsV2"));
                 client_download_file _ _ _ _ := Raise Backend.unreachable;
                 get_object _ _ := Raise Backend.unreachable;
                 generate_presigned_url _ _ _ _ := Raise Backend.unreachable;
                 head_object _ _ := Raise Backend.unreachable |})
           "" 1000 None Backend.w0).
  - reflexivity.
  - repeat constructor; by eexists.
Defined.

(** ** Configuration of the logger *)

Section logger_configuration.

Variable module_dir : Path.

Lemma is_dir_mono (fs1 fs2 : gmap string node) (p : Path) :
  fs1 ⊆ fs2 -> is_dir fs1 p = true -> is_dir fs2 p = true.
Proof.
  intros Hsub. unfold is_dir. destruct (parts p); [done|].
  destruct (fs1 !! str p) as [[]|] eqn:H; try discriminate.
  by rewrite (lookup_weaken _ _ _ _ H Hsub).
Qed.

Lemma open_append_Ok (p : Path) (fs1 fs2 : gmap string node) :
  open_append p fs1 = Ok fs2 ->
  (exists content, fs2 !! str p = Some (File content)) /\ fs1 ⊆ fs2.
Proof.
  unfold open_append. destruct (fs1 !! str p) as [[|content]|] eqn:H.
  - discriminate.
  - intros [= <-]. eauto.
  - destruct (parts p); [discriminate|].
    destruct (is_dir fs1 (parent p)); [|discriminate].
    intros [= <-]. rewrite lookup_insert_eq. split; [eauto|]. by apply insert_subseteq.
Qed.

(** What a call that succeeds has done, step by step. *)
Lemma setup_logging_Ok lvl to_file to_console max_bytes backup_count w l w' :
  setup_logging module_dir lvl to_file to_console max_bytes backup_count w = (Ok l, w') ->
  l = getLogger "s3_client"
  /\ w' = mkWorld (fs w') (environ w) lvl
            (attached module_dir lvl to_file to_console max_bytes backup_count)
            (_logger w) (log_calls w) (sdk_trace w)
  /\ if to_file then
       exists fs1, mkdir (LOG_DIR module_dir) (fs w) = Ok fs1
                   /\ open_append (LOG_FILE module_dir) fs1 = Ok (fs w')
     else fs w' = fs w.
Proof.
  unfold setup_logging, attached, bind, RotatingFileHandler, StreamHandler, addHandler,
    bind, os_do, ret.
  simpl. destruct to_file; simpl.
  - destruct (mkdir _ _) as [fs1|e] eqn:Hm; simpl; [|discriminate].
    destruct (open_append _ _) as [fs2|e] eqn:Ho; simpl; [|discriminate].
    destruct to_console; simpl; intros [= <- <-]; simpl; eauto.
  - destruct to_console; simpl; intros [= <- <-]; simpl; eauto.
Qed.

End logger_configuration.

(** [setup_logging] neither logs nor calls the SDK nor changes the
    environment or the default logger of the module. *)
Lemma setup_logging_frame
    (module_dir : Path) (lvl : Z) (to_file to_console : bool)
    (max_bytes backup_count : Z) (w : world) :
  let w' := snd (setup_logging module_dir lvl to_file to_console max_bytes backup_count w) in
  environ w' = environ w /\ _logger w' = _logger w
  /\ log_calls w' = log_calls w /\ sdk_trace w' = sdk_trace w.
Proof.
  unfold setup_logging, bind, RotatingFileHandler, StreamHandler, addHandler,
    bind, os_do, ret.
  simpl. destruct to_file; simpl.
  - destruct (mkdir _ _) as [fs1|e]; simpl; [|done].
    destruct (open_append _ _) as [fs2|e]; simpl; [|done].
    by destruct to_console.
  - by destruct to_console.
Qed.

(** X7. [setup_logging] sets the level of the logger to [level] whether it
    succeeds or not, and every handler it leaves has that level and the
    one format of the module.  Without a log file it cannot fail and does
    not touch the filesystem; in no case does it log, call the SDK, or
    change the environment or the default logger of the module. *)
Theorem setup_logging_sets_levels
    (module_dir : Path) (lvl : Z) (to_file to_console : bool)
    (max_bytes backup_count : Z) (w : world) :
  let r := fst (setup_logging module_dir lvl to_file to_console max_bytes backup_count w) in
  let w' := snd (setup_logging module_dir lvl to_file to_console max_bytes backup_count w) in
  level w' = lvl
  /\ Forall (fun h => h_level h = lvl
                      /\ h_formatter h = Some (mkFormatter LOG_FORMAT DATE_FORMAT))
       (handlers w')
  /\ (if to_file then True else r = Ok (getLogger "s3_client") /\ fs w' = fs w)
  /\ environ w' = environ w /\ _logger w' = _logger w
  /\ log_calls w' = log_calls w /\ sdk_trace w' = sdk_trace w.
Proof.
  unfold setup_logging, bind, RotatingFileHandler, StreamHandler, addHandler,
    bind, os_do, ret.
  simpl. destruct to_file; simpl.
  - destruct (mkdir _ _) as [fs1|e]; simpl; [|by repeat split].
    destruct (open_append _ _) as [fs2|e]; simpl; [|by repeat split].
    destruct to_console; simpl; repeat split; by repeat constructor.
  - destruct to_console; simpl; repeat split; by repeat constructor.
Qed.

(** X8. A call of [setup_logging] with a log file that succeeds leaves the
    log directory as a directory and the log file as a file, and keeps
    every file and directory that existed, with its content: a log file
    that was there is not truncated. *)
Theorem setup_logging_creates_log_file
    (module_dir : Path) (lvl : Z) (to_console : bool) (max_bytes backup_count : Z)
    (w : world) (l : LoggerRef) (w' : world) :
  setup_logging module_dir lvl true to_console max_bytes backup_count w = (Ok l, w') ->
  is_dir (fs w') (LOG_DIR module_dir) = true
  /\ (exists content, fs w' !! str (LOG_FILE module_dir) = Some (File content))
  /\ fs w ⊆ fs w'.
Proof.
  intros (_ & _ & fs1 & Hm & Ho)%setup_logging_Ok.
  apply mkdir_Ok in Hm as [Hd Hsub1]. apply open_append_Ok in Ho as [Hf Hsub2].
  split; [by eapply is_dir_mono|]. split; [done|]. by etrans.
Qed.

Lemma setup_logging_creates_log_file_witness :
  let w' := snd (setup_logging (Path_of "/srv/app") INFO true true (5 * 1024 * 1024) 3
                   (set_fs {[ "/srv" := Dir; "/srv/notes.txt" := File [Byte.x68] ]}
                      Backend.w0)) in
  is_dir (fs w') (LOG_DIR (Path_of "/srv/app")) = true
  /\ (exists content, fs w' !! str (LOG_FILE (Path_of "/srv/app")) = Some (File content))
  /\ fs (set_fs {[ "/srv" := Dir; "/srv/notes.txt" := File [Byte.x68] ]} Backend.w0) ⊆ fs w'.
Proof.
  intros w'.
  apply (setup_logging_creates_log_file (Path_of "/srv/app") INFO true (5 * 1024 * 1024) 3
           (set_fs {[ "/srv" := Dir; "/srv/notes.txt" := File [Byte.x68] ]} Backend.w0)
           (getLogger "s3_client") w').
  vm_compute. reflexivity.
Defined.

(** X9. [setup_logging] does not make the logger it configures the
    default logger of the module: the first [get_logger] that follows a
    call of [setup_logging], whatever its arguments, configures the logger
    again with the default options, so that the level and the choice of
    handlers of that call are lost (as happens to the level DEBUG asked for
    by the entry point of the module). *)
Theorem get_logger_overrides_setup
    (module_dir : Path) (lvl : Z) (to_file to_console : bool)
    (max_bytes backup_count : Z) (w : world) (l : LoggerRef) (w1 : world)
    (fs2 fs3 : gmap string node) :
  _logger w = None ->
  setup_logging module_dir lvl to_file to_console max_bytes backup_count w = (Ok l, w1) ->
  mkdir (LOG_DIR module_dir) (fs w1) = Ok fs2 ->
  open_append (LOG_FILE module_dir) fs2 = Ok fs3 ->
  level w1 = lvl
  /\ exists w2,
       get_logger module_dir w1 = (Ok l, w2)
       /\ level w2 = INFO
       /\ handlers w2 = attached module_dir INFO true true (5 * 1024 * 1024) 3.
Proof.
  intros Hnone Hs Hm Ho.
  apply setup_logging_Ok in Hs as (-> & Hw1 & _).
  assert (_logger w1 = None) as Hnone1 by (rewrite Hw1; done).
  split; [by rewrite Hw1|].
  eexists. split.
  - unfold get_logger, bind. rewrite Hnone1.
    rewrite (setup_logging_default_Ok module_dir w1 fs2 fs3 Hm Ho). reflexivity.
  - done.
Qed.

Lemma get_logger_overrides_setup_witness :
  let w1 := snd (setup_logging (Path_of "/srv/app") DEBUG true true (5 * 1024 * 1024) 3
                   Backend.w0) in
  level w1 = DEBUG
  /\ exists w2,
       get_logger (Path_of "/srv/app") w1 = (Ok (getLogger "s3_client"), w2)
       /\ level w2 = INFO
       /\ handlers w2 = attached (Path_of "/srv/app") INFO true true (5 * 1024 * 1024) 3.
Proof.
  intros w1.
  apply (get_logger_overrides_setup (Path_of "/srv/app") DEBUG true true (5 * 1024 * 1024) 3
           Backend.w0 (getLogger "s3_client") w1 (fs w1) (fs w1)).
  - reflexivity.
  - vm_compute. reflexivity.
  - vm_compute. reflexivity.
  - vm_compute. reflexivity.
Defined.

(** X10. After a call of [setup_logging] that succeeds, the handlers of
    the logger let no record below [level] through, and a record at [level]
    or above that is handed to them is written once to the log file when
    one was asked for, then once to the console when it was asked for, and
    nowhere else. *)
Theorem setup_logging_threshold
    (module_dir : Path) (lvl : Z) (to_file to_console : bool)
    (max_bytes backup_count : Z) (w : world) (l : LoggerRef) (w' : world) (levelno : Z) :
  setup_logging module_dir lvl to_file to_console max_bytes backup_count w = (Ok l, w') ->
  callHandlers (handlers w') levelno
  = if lvl <=? levelno then
      (if to_file then
         [RotatingFile (str (LOG_FILE module_dir)) max_bytes backup_count "utf-8"]
       else [])
      ++ (if to_console then [Stream_stderr] else [])
    else [].
Proof.
  intros (_ & -> & _)%setup_logging_Ok. simpl.
  unfold callHandlers, attached.
  destruct to_file, to_console; simpl; by destruct (lvl <=? levelno).
Qed.

Lemma setup_logging_threshold_witness :
  callHandlers
    (handlers (snd (setup_logging (Path_of "/srv/app") INFO true true (5 * 1024 * 1024) 3
                      Backend.w0)))
    DEBUG
  = [].
Proof.
  apply (setup_logging_threshold (Path_of "/srv/app") INFO true true (5 * 1024 * 1024) 3
           Backend.w0 (getLogger "s3_client") _ DEBUG).
  vm_compute. reflexivity.
Defined.

(** ** Construction and the logger *)

Section construction_logger.

Variable module_dir : Path.
Variable boto3_client : gmap string pyval -> gmap string pyval -> result Boto3Client.

(** [get_logger] neither logs nor calls the SDK nor changes the
    environment, and leaves the logger it returns as the default one. *)
Lemma get_logger_frame w r w' :
  get_logger module_dir w = (r, w') ->
  environ w' = environ w /\ log_calls w' = log_calls w /\ sdk_trace w' = sdk_trace w
  /\ forall l, r = Ok l -> _logger w' = Some l.
Proof.
  unfold get_logger. destruct (_logger w) as [l0|] eqn:Hl.
  - intros [= <- <-]. repeat split; try done. by intros l [= <-].
  - unfold bind, setup_logging_default.
    pose proof (setup_logging_frame module_dir INFO true true (5 * 1024 * 1024) 3 w)
      as (He & _ & Hc & Ht).
    destruct (setup_logging _ _ _ _ _ _ w) as [[l|e] w1]; simpl in *.
    + intros [= <- <-]. repeat split; try done. by intros ? [= <-].
    + intros [= <- <-]. repeat split; try done.
Qed.

End construction_logger.

(** X11. Construction logs one line, at level INFO and to the logger of the
    new client, when it succeeds, and nothing when it fails; it never calls
    the SDK client.  With a logger passed in, that logger is the one of the
    client, and the level and the handlers of the logger of the module and
    its default logger are left as they were; without one, the logger of
    the client is the default logger of the module. *)
Theorem construction_logging
    (module_dir : Path)
    (boto3_client : gmap string pyval -> gmap string pyval -> result Boto3Client)
    (bkt : string) (region akid secret endpoint : option string)
    (logger : option LoggerRef) (w : world) :
  let r := fst (__init__ module_dir boto3_client bkt region akid secret endpoint logger w) in
  let w' := snd (__init__ module_dir boto3_client bkt region akid secret endpoint logger w) in
  sdk_trace w' = sdk_trace w
  /\ match r with
     | Ok self =>
         bucket self = bkt
         /\ (exists args,
               log_calls w'
               = log_calls w
                 ++ [(log self,
                      mkLogCall INFO "S3 клиент инициализирован: bucket=%s, region=%s"
                        args None)])
         /\ match logger with
            | Some l => log self = l
            | None => _logger w' = Some (log self)
            end
     | Raise _ => log_calls w' = log_calls w
     end
  /\ match logger with
     | Some _ => level w' = level w /\ handlers w' = handlers w /\ _logger w' = _logger w
     | None => True
     end.
Proof.
  intros r w'. subst r w'.
  destruct (__init__ _ _ _ _ _ _ _ _ w) as [r w'] eqn:H. simpl. revert H.
  unfold __init__, bind at 1. destruct logger as [l|].
  - unfold ret at 1. unfold bind, lift_result, info, log_call, ret. simpl.
    destruct (boto3_client _ _) as [c|e]; intros [= <- <-]; simpl; repeat split; eauto.
  - destruct (get_logger module_dir w) as [[l|e] w1] eqn:Hg;
      apply get_logger_frame in Hg as (He & Hc & Ht & Hl).
    + unfold bind, lift_result, info, log_call, ret. simpl.
      destruct (boto3_client _ _) as [c|e]; intros [= <- <-]; simpl;
        rewrite ?Hc, ?Ht; repeat split; eauto.
    + intros [= <- <-]. by repeat split.
Qed.

(** ** The key and the destination *)

Section basename.

Local Open Scope string_scope.

Lemma append_empty (s : string) : s ++ "" = s.
Proof.
  induction s as [|c s IH]; [done|].
  change (String c (s ++ "") = String c s). by rewrite IH.
Qed.

Lemma append_one (cur : string) (c : ascii) (b : string) :
  (cur ++ String c "") ++ b = cur ++ String c b.
Proof.
  induction cur as [|a cur IH]; [done|].
  change (String a ((cur ++ String c "") ++ b) = String a (cur ++ String c b)).
  by rewrite IH.
Qed.

Lemma split_slash_plain (b : string) : forall cur,
  has_slash b = false -> split_slash b cur = [cur ++ b].
Proof.
  induction b as [|c b IH]; simpl; intros cur H.
  - by rewrite append_empty.
  - destruct (Ascii.eqb c slash); [discriminate|]. simpl in H.
    by rewrite IH, append_one.
Qed.

Lemma split_slash_app (s t : string) : forall cur,
  split_slash (s ++ String slash t) cur = (split_slash s cur ++ split_slash t "")%list.
Proof.
  induction s as [|c s IH]; intros cur.
  - change ("" ++ String slash t) with (String slash t). simpl.
    by rewrite ?Ascii.eqb_refl.
  - change (String c s ++ String slash t) with (String c (s ++ String slash t)). simpl.
    destruct (Ascii.eqb c slash); simpl; by rewrite IH.
Qed.

(** The last component of [dir/base] is [base]. *)
Lemma name_of_key (dir base : string) :
  has_slash base = false -> keep_part base = true ->
  name (Path_of (dir ++ "/" ++ base)) = base.
Proof.
  intros Hs Hk. unfold name, Path_of. simpl.
  change (dir ++ "/" ++ base) with (dir ++ String slash base).
  rewrite split_slash_app, List.filter_app, (split_slash_plain base "" Hs).
  change ("" ++ base) with base. simpl.
  rewrite Hk. apply last_last.
Qed.

Lemma Path_of_plain (base : string) :
  has_slash base = false -> keep_part base = true ->
  Path_of base = mkPath "" [base].
Proof.
  intros Hs Hk. unfold Path_of. rewrite (split_slash_plain base "" Hs).
  change ("" ++ base) with base. simpl.
  rewrite Hk. f_equal. unfold parse_root.
  destruct base as [|c base]; [done|]. simpl in *.
  by destruct (Ascii.eqb c slash).
Qed.

End basename.

(** ** Paths as pathlib makes them *)

Section normal_form.

Local Open Scope string_scope.

Lemma has_slash_snoc (cur : string) (c : ascii) :
  has_slash cur = false -> Ascii.eqb c slash = false ->
  has_slash (cur ++ String c "") = false.
Proof.
  intros Hcur Hc. induction cur as [|a cur IH].
  - change (has_slash (String c "") = false). simpl. by rewrite Hc.
  - change (has_slash (String a (cur ++ String c "")) = false).
    simpl in *. apply orb_false_iff in Hcur as [-> Hcur]. by apply IH.
Qed.

Lemma split_slash_no_slash (s : string) : forall cur,
  has_slash cur = false ->
  List.Forall (fun c => has_slash c = false) (split_slash s cur).
Proof.
  induction s as [|a s IH]; simpl; intros cur Hcur.
  - by constructor.
  - destruct (Ascii.eqb a slash) eqn:Ha.
    + constructor; [done|]. by apply IH.
    + apply IH. by apply has_slash_snoc.
Qed.

Lemma Path_of_well_formed (s : string) : well_formed (Path_of s) = true.
Proof.
  unfold well_formed, Path_of. simpl. apply andb_true_iff. split.
  - unfold parse_root. by destruct (leading_slashes s) as [|[|[|n]]].
  - apply forallb_forall. intros c [Hin Hk]%filter_In.
    unfold plain. rewrite Hk. simpl.
    pose proof (split_slash_no_slash s "" eq_refl) as H.
    rewrite List.Forall_forall in H. by rewrite (H c Hin).
Qed.

Lemma truediv_well_formed (p q : Path) :
  well_formed p = true -> well_formed q = true -> well_formed (p // q) = true.
Proof.
  unfold truediv. destruct (String.eqb (root q) ""); [|done].
  unfold well_formed. simpl.
  intros [Hr Hp]%andb_true_iff [_ Hq]%andb_true_iff.
  by rewrite Hr, forallb_app, Hp, Hq.
Qed.

Lemma destination_well_formed (key : string) (local_path local_dir : option PathLike) :
  well_formed_arg local_path = true -> well_formed_arg local_dir = true ->
  well_formed (destination key local_path local_dir) = true.
Proof.
  intros Hp Hd. unfold destination.
  assert (well_formed (if given local_dir then to_Path local_dir else Path_of ".") = true)
    as Hunder.
  { destruct local_dir as [[s|d]|]; simpl.
    - destruct (negb _); apply Path_of_well_formed.
    - exact Hd.
    - apply Path_of_well_formed. }
  destruct local_path as [[s|p]|]; simpl.
  - destruct (negb _); [apply Path_of_well_formed|].
    apply truediv_well_formed; [done | apply Path_of_well_formed].
  - exact Hp.
  - apply truediv_well_formed; [done | apply Path_of_well_formed].
Qed.

Lemma plain_head (c : string) :
  plain c = true ->
  exists a rest, c = String a rest /\ Ascii.eqb a slash = false /\ has_slash rest = false.
Proof.
  unfold plain. destruct c as [|a rest]; [done|].
  intros [_ Hs]%andb_true_iff. apply negb_true_iff in Hs. simpl in Hs.
  apply orb_false_iff in Hs as [Ha Hrest]. eauto.
Qed.

Lemma plain_no_slash (c : string) : plain c = true -> has_slash c = false.
Proof. unfold plain. intros [_ Hs]%andb_true_iff. by apply negb_true_iff. Qed.

Lemma split_join (l : list string) :
  l <> [] -> forallb plain l = true -> split_slash (join_slash l) "" = l.
Proof.
  induction l as [|c l IH]; [done|]. intros _ H. simpl in H.
  apply andb_true_iff in H as [Hc Hl]. destruct l as [|c' l'].
  - simpl. rewrite split_slash_plain by (by apply plain_no_slash). done.
  - change (join_slash (c :: c' :: l')) with (c ++ String slash (join_slash (c' :: l'))).
    rewrite split_slash_app, IH by done.
    rewrite split_slash_plain by (by apply plain_no_slash). done.
Qed.

Lemma filter_plain (l : list string) :
  forallb plain l = true -> List.filter keep_part l = l.
Proof.
  induction l as [|c l IH]; [done|]. simpl.
  intros [Hc Hl]%andb_true_iff. unfold plain in Hc.
  apply andb_true_iff in Hc as [-> _]. by rewrite IH.
Qed.

Lemma join_head (c : string) (l : list string) :
  plain c = true ->
  exists a rest, join_slash (c :: l) = String a rest /\ Ascii.eqb a slash = false.
Proof.
  intros (a & rest & -> & Ha & _)%plain_head. destruct l as [|c' l'].
  - by exists a, rest.
  - by exists a, (rest ++ String slash (join_slash (c' :: l'))).
Qed.

(** Parsing the string of a path gives the path back. *)
Lemma Path_of_str (p : Path) : well_formed p = true -> Path_of (str p) = p.
Proof.
  destruct p as [r l]. unfold well_formed. simpl.
  intros [Hr Hl]%andb_true_iff.
  destruct l as [|c l].
  { apply orb_true_iff in Hr as [Hr|Hr]; [apply orb_true_iff in Hr as [Hr|Hr]|];
      apply String.eqb_eq in Hr; subst r; reflexivity. }
  assert (forallb plain (c :: l) = true) as Hl' by done.
  simpl in Hl. apply andb_true_iff in Hl as [Hc _].
  destruct (join_head c l Hc) as (a & rest & Hj & Ha).
  pose proof (split_join (c :: l) ltac:(done) Hl') as Hs.
  pose proof (filter_plain (c :: l) Hl') as Hf.
  apply orb_true_iff in Hr as [Hr|Hr]; [apply orb_true_iff in Hr as [Hr|Hr]|];
    apply String.eqb_eq in Hr; subst r.
  - change (str (mkPath "" (c :: l))) with (join_slash (c :: l)).
    generalize dependent (join_slash (c :: l)). intros j Hj Hs.
    unfold Path_of. rewrite Hs, Hf. f_equal.
    unfold parse_root. rewrite Hj. simpl. by rewrite Ha.
  - change (str (mkPath "/" (c :: l))) with (String slash (join_slash (c :: l))).
    generalize dependent (join_slash (c :: l)). intros j Hj Hs.
    unfold Path_of. simpl. rewrite Hs, Hf. f_equal.
    unfold parse_root. simpl. rewrite Hj. simpl. by rewrite Ha.
  - change (str (mkPath "//" (c :: l)))
      with (String slash (String slash (join_slash (c :: l)))).
    generalize dependent (join_slash (c :: l)). intros j Hj Hs.
    unfold Path_of. simpl. rewrite Hs, Hf. f_equal.
    unfold parse_root. simpl. rewrite Hj. simpl. by rewrite Ha.
Qed.

End normal_form.

(** ** The two ways of downloading *)

(** The reference backend serves the objects it holds. *)
Lemma mem_client_serves (bkt : string) (objects : list (string * list Byte.byte))
    (key : string) (data : list Byte.byte) :
  Backend.find_object objects key = Some data ->
  serves (Backend.mem_client bkt objects) bkt key data.
Proof.
  intros Hf. split; simpl; rewrite String.eqb_refl, Hf.
  - eauto.
  - intros filename fs [Hparent Hfree]%andb_true_iff.
    apply negb_true_iff in Hfree. by rewrite Hfree, Hparent.
Qed.



(** X12. Without [local_path], the directories of the key play no part in
    the destination: for a key [dir/base] whose last component [base] is a
    plain name, the object goes to [base] directly under [local_dir] (or
    under the current directory), so that keys with the same last component
    are written to the same file. *)
Theorem destination_drops_key_directories
    (dir base : string) (local_dir : option PathLike) :
  has_slash base = false ->
  keep_part base = true ->
  let under := match local_dir with
               | Some (AsPath d) => d
               | Some (AsStr s) => Path_of s
               | None => Path_of "."
               end in
  destination (dir ++ "/" ++ base)%string None local_dir
  = mkPath (root under) (parts under ++ [base])
  /\ destination (dir ++ "/" ++ base)%string None local_dir = destination base None local_dir.
Proof.
  intros Hs Hk under.
  assert (destination (dir ++ "/" ++ base)%string None local_dir
          = mkPath (root under) (parts under ++ [base])) as H1.
  { rewrite destination_local_dir by done. fold under.
    rewrite name_of_key, Path_of_plain by done. reflexivity. }
  split; [done|]. rewrite H1.
  rewrite destination_local_dir by done. fold under.
  assert (name (Path_of base) = base) as ->.
  { rewrite Path_of_plain by done. reflexivity. }
  rewrite Path_of_plain by done. reflexivity.
Qed.

Lemma destination_drops_key_directories_witness :
  destination "uploads/2024/b.txt" None (Some (AsStr "/tmp/out"))
  = mkPath "/" ["tmp"; "out"; "b.txt"]
  /\ destination "uploads/2024/b.txt" None (Some (AsStr "/tmp/out"))
     = destination "b.txt" None (Some (AsStr "/tmp/out")).
Proof.
  apply (destination_drops_key_directories "uploads/2024" "b.txt" (Some (AsStr "/tmp/out")));
    reflexivity.
Defined.

(** ** The callers *)

(** What [list_objects] leaves when the paginator fails after pages whose
    entries went through. *)
Lemma list_objects_fails (self : S3Client) prefix max_keys delimiter pages e res w :
  paginate (_client self) (bucket self) prefix max_keys (or_empty delimiter) = (pages, Some e) ->
  for_page pages [] = Ok res ->
  list_objects self prefix max_keys delimiter w
  = (Raise e,
     let w1 :=
       add_sdk_event (Raised e)
         (add_sdk_event (Called (Call_paginate (bucket self) prefix max_keys (or_empty delimiter)))
            (add_log_call
               (log self,
                mkLogCall DEBUG "list_objects: prefix=%r, max_keys=%s"
                  [PStr prefix; PInt max_keys] None) w)) in
     if is_ClientError e then
       add_log_call (log self, mkLogCall ERROR "list_objects ошибка: %s" [PExc e] (Some e)) w1
     else w1).
Proof.
  intros Hp Hr.
  unfold list_objects, try_except_ClientError, bind, debug, info, exception, log_call,
    sdk_event, lift_result, raise, ret.
  rewrite Hp. simpl. rewrite Hr. simpl. by destruct (is_ClientError e).
Qed.

Section callers_properties.

Variable module_dir : Path.
Variable boto3_client : gmap string pyval -> gmap string pyval -> result Boto3Client.

(** Construction without a logger, once the default logger exists. *)
Lemma __init___default_logger bkt l c w :
  _logger w = Some l ->
  boto3_client (make_session_kwargs (resolve (environ w) None None None None))
    (make_client_kwargs (resolve (environ w) None None None None)) = Ok c ->
  __init__ module_dir boto3_client bkt None None None None None w
  = (Ok (mkS3Client bkt l
           (make_session_kwargs (resolve (environ w) None None None None))
           (make_client_kwargs (resolve (environ w) None None None None)) c),
     add_log_call
       (l, mkLogCall INFO "S3 клиент инициализирован: bucket=%s, region=%s"
             [PStr bkt; of_optional (r_region_name (resolve (environ w) None None None None))]
             None) w).
Proof.
  intros Hl Hc. unfold __init__, bind at 1. rewrite (get_logger_cached module_dir l w Hl).
  unfold bind, lift_result, info, log_call, ret. simpl. by rewrite Hc.
Qed.

End callers_properties.

(** X13. Once logging is set up, a bucket is named by the environment and
    the client is built, [main] of the example returns normally whatever
    [list_objects] does: no error of the listing goes out of it.  When the
    paginator fails, the error is passed to [Logger.exception] by [main],
    in the last line it logs, after [list_objects] has done so itself if
    the error is a [ClientError]: such an error is logged twice, an error of
    another kind once. *)
Theorem main_contains_listing_errors
    (module_dir : Path)
    (boto3_client : gmap string pyval -> gmap string pyval -> result Boto3Client)
    (w : world) (l0 : LoggerRef) (w1 : world) (l : LoggerRef) (w2 : world)
    (bkt : string) (c : Boto3Client) :
  setup_logging module_dir INFO true true (5 * 1024 * 1024) 3 w = (Ok l0, w1) ->
  get_logger module_dir w1 = (Ok l, w2) ->
  bucket_of_environ (environ w) = Some bkt ->
  bkt <> "" ->
  boto3_client (make_session_kwargs (resolve (environ w) None None None None))
    (make_client_kwargs (resolve (environ w) None None None None)) = Ok c ->
  fst (main module_dir boto3_client w) = Ok tt
  /\ forall pages e,
       paginate c bkt "" 20 "" = (pages, Some e) ->
       Forall (fun obj => is_Some (obj !! "Key")) (raw_entries pages) ->
       exists calls,
         log_calls (snd (main module_dir boto3_client w)) = log_calls w ++ calls
         /\ logged_exceptions calls = (if is_ClientError e then [e; e] else [e])
         /\ last calls
            = Some (l, mkLogCall ERROR "Ошибка при получении списка: %s" [PExc e] (Some e)).
Proof.
  intros Hs Hg Hb Hne Hc.
  pose proof (setup_logging_frame module_dir INFO true true (5 * 1024 * 1024) 3 w)
    as (He1 & _ & Hc1 & _).
  rewrite Hs in He1, Hc1. simpl in He1, Hc1.
  pose proof (get_logger_frame module_dir _ _ _ Hg) as (He2 & Hc2 & _ & Hl2).
  specialize (Hl2 l eq_refl).
  assert (environ w2 = environ w) as He by congruence.
  assert (log_calls w2 = log_calls w) as Hlog by congruence.
  assert (truthy (Some bkt) = true) as Ht by (by apply truthy_Some).
  destruct (main module_dir boto3_client w) as [r w'] eqn:Hm. simpl. revert Hm.
  unfold main. unfold bind at 1. rewrite Hs. unfold bind at 1. rewrite Hg.
  unfold bind at 1. simpl. rewrite He, Hb, Ht. simpl.
  unfold bind at 1.
  rewrite (__init___default_logger module_dir boto3_client bkt l c w2 Hl2)
    by (by rewrite He).
  rewrite He.
  set (client := mkS3Client bkt l _ _ c).
  unfold bind at 1. unfold info at 1, log_call at 1.
  unfold bind at 1, try_except_Exception, bind at 1.
  match goal with
  | |- context [list_objects client "" 20 None ?W] =>
      destruct (list_objects client "" 20 None W) as [[objects|e0] w5] eqn:Hlist
  end.
  - unfold bind at 1.
    destruct (for_each objects _ w5) as [[[]|e1] w6]; simpl;
      intros [= <- <-]; (split; [done|]); intros pages e Hp Hk;
      apply (for_page_Ok_iff pages []) in Hk as [res Hres];
      rewrite (list_objects_fails client "" 20 None pages e res _ Hp Hres) in Hlist;
      discriminate.
  - simpl. intros [= <- <-]. split; [done|]. intros pages e Hp Hk.
    apply (for_page_Ok_iff pages []) in Hk as [res Hres].
    rewrite (list_objects_fails client "" 20 None pages e res _ Hp Hres) in Hlist.
    injection Hlist as <- <-.
    destruct (is_ClientError e) eqn:Hce; simpl; rewrite Hlog, <- ?app_assoc; simpl;
      eexists; (split; [reflexivity|]); simpl; done.
Qed.

Lemma main_contains_listing_errors_witness :
  let w := mkWorld ∅ {[ "S3_BUCKET" := "test-bucket" ]} 0 [] None [] [] in
  let boto3 := fun _ _ : gmap string pyval => Ok denied_client in
  fst (main (Path_of "/srv/app") boto3 w) = Ok tt
  /\ exists calls,
       log_calls (snd (main (Path_of "/srv/app") boto3 w)) = log_calls w ++ calls
       /\ logged_exceptions calls
          = [ClientError "AccessDenied" "ListObjectsV2"; ClientError "AccessDenied" "ListObjectsV2"].
Proof.
  intros w boto3.
  destruct (main_contains_listing_errors (Path_of "/srv/app") boto3 w
              (getLogger "s3_client")
              (snd (setup_logging (Path_of "/srv/app") INFO true true (5 * 1024 * 1024) 3 w))
              (getLogger "s3_client")
              (snd (get_logger (Path_of "/srv/app")
                      (snd (setup_logging (Path_of "/srv/app") INFO true true
                              (5 * 1024 * 1024) 3 w))))
              "test-bucket" denied_client) as [Hret Hlog].
  - vm_compute. reflexivity.
  - vm_compute. reflexivity.
  - reflexivity.
  - discriminate.
  - reflexivity.
  - split; [exact Hret|].
    destruct (Hlog [mkPage (Some [ Backend.object_entry ("a.txt", []) ])]
                (ClientError "AccessDenied" "ListObjectsV2")) as (calls & H1 & H2 & _).
    + reflexivity.
    + repeat constructor; by eexists.
    + exists calls. split; [exact H1 | exact H2].
Defined.

(** X14. With no bucket named by the environment (neither S3_BUCKET nor
    AWS_BUCKET, or empty strings), both callers stop after logging one
    line, an error for [main] of the example and a warning for the entry
    point of the module: the SDK is not called; and when setting up the
    logger fails, nothing is logged. *)
Theorem callers_without_bucket
    (module_dir : Path)
    (boto3_client : gmap string pyval -> gmap string pyval -> result Boto3Client)
    (w : world) :
  truthy (bucket_of_environ (environ w)) = false ->
  (sdk_trace (snd (main module_dir boto3_client w)) = sdk_trace w
   /\ match fst (main module_dir boto3_client w) with
      | Ok _ =>
          exists l,
            log_calls (snd (main module_dir boto3_client w))
            = log_calls w
              ++ [(l, mkLogCall ERROR "Укажите S3_BUCKET или AWS_BUCKET в .env" [] None)]
      | Raise _ => log_calls (snd (main module_dir boto3_client w)) = log_calls w
      end)
  /\ (sdk_trace (snd (__main__ module_dir boto3_client w)) = sdk_trace w
      /\ match fst (__main__ module_dir boto3_client w) with
         | Ok _ =>
             exists l,
               log_calls (snd (__main__ module_dir boto3_client w))
               = log_calls w
                 ++ [(l, mkLogCall WARNING
                           "Задайте S3_BUCKET или AWS_BUCKET в .env для теста" [] None)]
         | Raise _ => log_calls (snd (__main__ module_dir boto3_client w)) = log_calls w
         end).
Proof.
  intros Hb. split.
  - pose proof (setup_logging_frame module_dir INFO true true (5 * 1024 * 1024) 3 w)
      as (He1 & _ & Hc1 & Ht1).
    destruct (main module_dir boto3_client w) as [r w'] eqn:Hm. simpl. revert Hm.
    unfold main. unfold bind at 1.
    destruct (setup_logging _ _ _ _ _ _ w) as [[l0|e] w1]; simpl in *;
      [|by intros [= <- <-]].
    unfold bind at 1.
    destruct (get_logger module_dir w1) as [[l|e] w2] eqn:Hg;
      apply get_logger_frame in Hg as (He2 & Hc2 & Ht2 & _); [|intros [= <- <-]; split; congruence].
    unfold bind at 1. simpl. rewrite He2, He1, Hb. simpl.
    unfold error, log_call. intros [= <- <-]. simpl. split; [congruence|].
    exists l. congruence.
  - pose proof (setup_logging_frame module_dir DEBUG true true (5 * 1024 * 1024) 3 w)
      as (He1 & _ & Hc1 & Ht1).
    destruct (__main__ module_dir boto3_client w) as [r w'] eqn:Hm. simpl. revert Hm.
    unfold __main__. unfold bind at 1.
    destruct (setup_logging _ _ _ _ _ _ w) as [[l0|e] w1]; simpl in *;
      [|by intros [= <- <-]].
    unfold bind at 1.
    destruct (get_logger module_dir w1) as [[l|e] w2] eqn:Hg;
      apply get_logger_frame in Hg as (He2 & Hc2 & Ht2 & _); [|intros [= <- <-]; split; congruence].
    unfold bind at 1. simpl. rewrite He2, He1, Hb. simpl.
    unfold warning, log_call. intros [= <- <-]. simpl. split; [congruence|].
    exists l. congruence.
Qed.

Lemma callers_without_bucket_witness :
  let w := mkWorld ∅ {[ "S3_BUCKET" := "" ]} 0 [] None [] [] in
  sdk_trace (snd (main (Path_of "/srv/app") Backend.test_boto3 w)) = sdk_trace w
  /\ sdk_trace (snd (__main__ (Path_of "/srv/app") Backend.test_boto3 w)) = sdk_trace w.
Proof.
  intros w.
  destruct (callers_without_bucket (Path_of "/srv/app") Backend.test_boto3 w)
    as [[H1 _] [H2 _]].
  - reflexivity.
  - split; [exact H1 | exact H2].
Defined.

(** What [list_objects] leaves when it returns. *)
Lemma list_objects_succeeds (self : S3Client) prefix max_keys delimiter pages res w :
  paginate (_client self) (bucket self) prefix max_keys (or_empty delimiter) = (pages, None) ->
  for_page pages [] = Ok res ->
  list_objects self prefix max_keys delimiter w
  = (Ok res,
     add_log_call
       (log self,
        mkLogCall INFO "list_objects: получено записей=%s (prefix=%r)"
          [PInt (Z.of_nat (length res)); PStr prefix] None)
       (add_sdk_event (Called (Call_paginate (bucket self) prefix max_keys (or_empty delimiter)))
          (add_log_call
             (log self,
              mkLogCall DEBUG "list_objects: prefix=%r, max_keys=%s"
                [PStr prefix; PInt max_keys] None) w))).
Proof.
  intros Hp Hr.
  unfold list_objects, try_except_ClientError, bind, debug, info, exception, log_call,
    sdk_event, lift_result, raise, ret.
  rewrite Hp. simpl. by rewrite Hr.
Qed.

(** The loop of [main] over records that came out of [list_objects]: one
    line each, in order, and no error. *)
Lemma main_loop_lines (l : LoggerRef) (objs rs : list (gmap string pyval)) :
  Forall2 (fun obj r => listing_entry obj = Ok r) objs rs ->
  forall w,
  exists w',
    for_each rs
      (fun obj =>
         key <- lift_result (getitem obj "Key") ;;
         size <- lift_result (getitem obj "Size") ;;
         last_modified <- lift_result (getitem obj "LastModified") ;;
         info l "  %s | %s bytes | %s" [key; size; last_modified]) w
    = (Ok tt, w')
    /\ log_calls w'
       = log_calls w
         ++ ((fun obj =>
                (l, mkLogCall INFO "  %s | %s bytes | %s"
                      [default PNone (obj !! "Key"); default (PInt 0) (obj !! "Size");
                       default PNone (obj !! "LastModified")] None)) <$> objs).
Proof.
  intros H. set (body := fun obj : gmap string pyval => _).
  induction H as [|obj r objs rs Hr _ IH]; intros w.
  - exists w. split; [done|]. by rewrite app_nil_r.
  - destruct (listing_entry_Ok _ _ Hr) as (k & Hk & _).
    apply listing_entry_record in Hr as (_ & HK & HS & HL & _).
    cbn [for_each]. unfold bind at 1.
    assert (body r w
            = (Ok tt,
               add_log_call
                 (l, mkLogCall INFO "  %s | %s bytes | %s"
                       [default PNone (obj !! "Key"); default (PInt 0) (obj !! "Size");
                        default PNone (obj !! "LastModified")] None) w)) as ->.
    { unfold body, bind, lift_result, getitem, info, log_call.
      rewrite HK, HS, HL, Hk. reflexivity. }
    destruct (IH (add_log_call
                    (l, mkLogCall INFO "  %s | %s bytes | %s"
                          [default PNone (obj !! "Key"); default (PInt 0) (obj !! "Size");
                           default PNone (obj !! "LastModified")] None) w))
      as (w' & -> & Hlog).
    exists w'. split; [done|]. rewrite Hlog. simpl. by rewrite <- app_assoc.
Qed.

(** X15. Once logging is set up, a bucket is named by the environment and
    the client is built, when the listing comes back [main] of the example
    logs one line per object, in the order of the listing, with the key,
    the size (0 when the backend gave none) and the date of the object, then
    its closing line, and returns: the fields it reads from the records of
    [list_objects] are always there. *)
Theorem main_logs_each_object
    (module_dir : Path)
    (boto3_client : gmap string pyval -> gmap string pyval -> result Boto3Client)
    (w : world) (l0 : LoggerRef) (w1 : world) (l : LoggerRef) (w2 : world)
    (bkt : string) (c : Boto3Client) (pages : list Page) :
  setup_logging module_dir INFO true true (5 * 1024 * 1024) 3 w = (Ok l0, w1) ->
  get_logger module_dir w1 = (Ok l, w2) ->
  bucket_of_environ (environ w) = Some bkt ->
  bkt <> "" ->
  boto3_client (make_session_kwargs (resolve (environ w) None None None None))
    (make_client_kwargs (resolve (environ w) None None None None)) = Ok c ->
  paginate c bkt "" 20 "" = (pages, None) ->
  Forall (fun obj => is_Some (obj !! "Key")) (raw_entries pages) ->
  fst (main module_dir boto3_client w) = Ok tt
  /\ exists before,
       log_calls (snd (main module_dir boto3_client w))
       = log_calls w ++ before
         ++ ((fun obj =>
                (l, mkLogCall INFO "  %s | %s bytes | %s"
                      [default PNone (obj !! "Key"); default (PInt 0) (obj !! "Size");
                       default PNone (obj !! "LastModified")] None)) <$> raw_entries pages)
         ++ [(l, mkLogCall INFO "Готово." [] None)]
       /\ length before = 4%nat
       /\ logged_exceptions before = [].
Proof.
  intros Hs Hg Hb Hne Hc Hp Hk.
  pose proof (setup_logging_frame module_dir INFO true true (5 * 1024 * 1024) 3 w)
    as (He1 & _ & Hc1 & _).
  rewrite Hs in He1, Hc1. simpl in He1, Hc1.
  pose proof (get_logger_frame module_dir _ _ _ Hg) as (He2 & Hc2 & _ & Hl2).
  specialize (Hl2 l eq_refl).
  assert (environ w2 = environ w) as He by congruence.
  assert (log_calls w2 = log_calls w) as Hlog by congruence.
  assert (truthy (Some bkt) = true) as Ht by (by apply truthy_Some).
  apply (for_page_Ok_iff pages []) in Hk as [res Hres].
  destruct (for_page_Ok _ _ _ Hres) as (rs & Hrs & Hentries). simpl in Hrs. subst rs.
  destruct (main module_dir boto3_client w) as [r w'] eqn:Hm. simpl. revert Hm.
  unfold main. unfold bind at 1. rewrite Hs. unfold bind at 1. rewrite Hg.
  unfold bind at 1. simpl. rewrite He, Hb, Ht. simpl.
  unfold bind at 1.
  rewrite (__init___default_logger module_dir boto3_client bkt l c w2 Hl2)
    by (by rewrite He).
  rewrite He.
  set (client := mkS3Client bkt l _ _ c).
  unfold bind at 1. unfold info at 1, log_call at 1.
  unfold bind at 1, try_except_Exception, bind at 1.
  rewrite (list_objects_succeeds client "" 20 None pages res _ Hp Hres).
  unfold bind at 1.
  match goal with
  | |- context [for_each res ?body ?W] =>
      destruct (main_loop_lines l _ _ Hentries W) as (w6 & -> & Hlines)
  end.
  unfold ret at 1. unfold info, log_call. intros [= <- <-]. split; [done|].
  simpl. rewrite Hlines. simpl. rewrite Hlog, <- !app_assoc. simpl.
  eexists [_; _; _; _]. split; [reflexivity|]. done.
Qed.

Lemma main_logs_each_object_witness :
  let w := mkWorld ∅ {[ "AWS_BUCKET" := "test-bucket" ]} 0 [] None [] [] in
  fst (main (Path_of "/srv/app") Backend.test_boto3 w) = Ok tt.
Proof.
  intros w.
  destruct (main_logs_each_object (Path_of "/srv/app") Backend.test_boto3 w
              (getLogger "s3_client")
              (snd (setup_logging (Path_of "/srv/app") INFO true true (5 * 1024 * 1024) 3 w))
              (getLogger "s3_client")
              (snd (get_logger (Path_of "/srv/app")
                      (snd (setup_logging (Path_of "/srv/app") INFO true true
                              (5 * 1024 * 1024) 3 w))))
              "test-bucket" (Backend.mem_client "test-bucket" Backend.test_objects)
              [Backend.list_page Backend.test_objects ""]) as [Hret _].
  - vm_compute. reflexivity.
  - vm_compute. reflexivity.
  - reflexivity.
  - discriminate.
  - reflexivity.
  - reflexivity.
  - repeat constructor; by eexists.
  - exact Hret.
Defined.

(** The loop of the entry point over records that came out of
    [list_objects]. *)
Lemma entry_loop_lines (l : LoggerRef) (objs rs : list (gmap string pyval)) :
  Forall2 (fun obj r => listing_entry obj = Ok r) objs rs ->
  forall w,
  exists w',
    for_each rs
      (fun obj =>
         key <- lift_result (getitem obj "Key") ;;
         size <- lift_result (getitem obj "Size") ;;
         info l "  %s (%s bytes)" [key; size]) w
    = (Ok tt, w')
    /\ log_calls w'
       = log_calls w
         ++ ((fun obj =>
                (l, mkLogCall INFO "  %s (%s bytes)"
                      [default PNone (obj !! "Key"); default (PInt 0) (obj !! "Size")]
                      None)) <$> objs).
Proof.
  intros H. set (body := fun obj : gmap string pyval => _).
  induction H as [|obj r objs rs Hr _ IH]; intros w.
  - exists w. split; [done|]. by rewrite app_nil_r.
  - destruct (listing_entry_Ok _ _ Hr) as (k & Hk & _).
    apply listing_entry_record in Hr as (_ & HK & HS & _).
    cbn [for_each]. unfold bind at 1.
    assert (body r w
            = (Ok tt,
               add_log_call
                 (l, mkLogCall INFO "  %s (%s bytes)"
                       [default PNone (obj !! "Key"); default (PInt 0) (obj !! "Size")]
                       None) w)) as ->.
    { unfold body, bind, lift_result, getitem, info, log_call.
      rewrite HK, HS, Hk. reflexivity. }
    destruct (IH (add_log_call
                    (l, mkLogCall INFO "  %s (%s bytes)"
                          [default PNone (obj !! "Key"); default (PInt 0) (obj !! "Size")]
                          None) w))
      as (w' & -> & Hlog).
    exists w'. split; [done|]. rewrite Hlog. simpl. by rewrite <- app_assoc.
Qed.

(** X16. Once logging is set up, a bucket is named by the environment and
    the client is built, the entry point of the module ends normally
    whatever [list_objects] does; and when the listing comes back, it logs
    the number of objects and then one line for each of the first five
    objects at most, in the order of the listing. *)
Theorem entry_point_lists_five
    (module_dir : Path)
    (boto3_client : gmap string pyval -> gmap string pyval -> result Boto3Client)
    (w : world) (l0 : LoggerRef) (w1 : world) (l : LoggerRef) (w2 : world)
    (bkt : string) (c : Boto3Client) :
  setup_logging module_dir DEBUG true true (5 * 1024 * 1024) 3 w = (Ok l0, w1) ->
  get_logger module_dir w1 = (Ok l, w2) ->
  bucket_of_environ (environ w) = Some bkt ->
  bkt <> "" ->
  boto3_client (make_session_kwargs (resolve (environ w) None None None None))
    (make_client_kwargs (resolve (environ w) None None None None)) = Ok c ->
  fst (__main__ module_dir boto3_client w) = Ok tt
  /\ forall pages,
       paginate c bkt "" 10 "" = (pages, None) ->
       Forall (fun obj => is_Some (obj !! "Key")) (raw_entries pages) ->
       exists before,
         log_calls (snd (__main__ module_dir boto3_client w))
         = log_calls w ++ before
           ++ ((fun obj =>
                  (l, mkLogCall INFO "  %s (%s bytes)"
                        [default PNone (obj !! "Key"); default (PInt 0) (obj !! "Size")]
                        None)) <$> take 5 (raw_entries pages))
         /\ last before
            = Some (l, mkLogCall INFO "Найдено объектов: %s"
                         [PInt (Z.of_nat (length (raw_entries pages)))] None)
         /\ logged_exceptions before = [].
Proof.
  intros Hs Hg Hb Hne Hc.
  pose proof (setup_logging_frame module_dir DEBUG true true (5 * 1024 * 1024) 3 w)
    as (He1 & _ & Hc1 & _).
  rewrite Hs in He1, Hc1. simpl in He1, Hc1.
  pose proof (get_logger_frame module_dir _ _ _ Hg) as (He2 & Hc2 & _ & Hl2).
  specialize (Hl2 l eq_refl).
  assert (environ w2 = environ w) as He by congruence.
  assert (log_calls w2 = log_calls w) as Hlog by congruence.
  assert (truthy (Some bkt) = true) as Ht by (by apply truthy_Some).
  destruct (__main__ module_dir boto3_client w) as [r w'] eqn:Hm. simpl. revert Hm.
  unfold __main__. unfold bind at 1. rewrite Hs. unfold bind at 1. rewrite Hg.
  unfold bind at 1. simpl. rewrite He, Hb, Ht. simpl.
  unfold bind at 1.
  rewrite (__init___default_logger module_dir boto3_client bkt l c w2 Hl2)
    by (by rewrite He).
  rewrite He.
  set (client := mkS3Client bkt l _ _ c).
  unfold try_except_Exception, bind at 1.
  match goal with
  | |- context [list_objects client "" 10 None ?W] =>
      destruct (list_objects client "" 10 None W) as [[objects|e0] w5] eqn:Hlist
  end.
  - unfold bind at 1. unfold info at 1, log_call at 1.
    match goal with
    | |- context [for_each (take 5 objects) ?body ?W] =>
        destruct (for_each (take 5 objects) body W) as [[[]|e1] w6] eqn:Hfor
    end.
    + intros [= <- <-]. split; [done|]. intros pages Hp Hk.
      apply (for_page_Ok_iff pages []) in Hk as [res Hres].
      rewrite (list_objects_succeeds client "" 10 None pages res _ Hp Hres) in Hlist.
      injection Hlist as <- <-.
      destruct (for_page_Ok _ _ _ Hres) as (rs & Hrs & Hentries). simpl in Hrs. subst rs.
      assert (length res = length (raw_entries pages)) as Hlen
        by (symmetry; by eapply Forall2_length).
      match type of Hfor with
      | for_each _ _ ?W = _ =>
          destruct (entry_loop_lines l _ _ (Forall2_take _ _ _ 5 Hentries) W)
            as (w7 & Hfor' & Hlines)
      end.
      rewrite Hfor' in Hfor. injection Hfor as <-.
      rewrite Hlines. simpl. rewrite Hlog, <- !app_assoc. simpl.
      eexists [_; _; _; _]. split; [reflexivity|]. rewrite Hlen. done.
    + simpl. intros [= <- <-]. split; [done|]. intros pages Hp Hk.
      apply (for_page_Ok_iff pages []) in Hk as [res Hres].
      rewrite (list_objects_succeeds client "" 10 None pages res _ Hp Hres) in Hlist.
      injection Hlist as <- <-.
      destruct (for_page_Ok _ _ _ Hres) as (rs & Hrs & Hentries). simpl in Hrs. subst rs.
      match type of Hfor with
      | for_each _ _ ?W = _ =>
          destruct (entry_loop_lines l _ _ (Forall2_take _ _ _ 5 Hentries) W)
            as (w7 & Hfor' & _)
      end.
      rewrite Hfor' in Hfor. discriminate.
  - simpl. intros [= <- <-]. split; [done|]. intros pages Hp Hk.
    apply (for_page_Ok_iff pages []) in Hk as [res Hres].
    rewrite (list_objects_succeeds client "" 10 None pages res _ Hp Hres) in Hlist.
    discriminate.
Qed.

Lemma entry_point_lists_five_witness :
  let w := mkWorld ∅ {[ "S3_BUCKET" := "test-bucket" ]} 0 [] None [] [] in
  fst (__main__ (Path_of "/srv/app") Backend.test_boto3 w) = Ok tt.
Proof.
  intros w.
  destruct (entry_point_lists_five (Path_of "/srv/app") Backend.test_boto3 w
              (getLogger "s3_client")
              (snd (setup_logging (Path_of "/srv/app") DEBUG true true (5 * 1024 * 1024) 3 w))
              (getLogger "s3_client")
              (snd (get_logger (Path_of "/srv/app")
                      (snd (setup_logging (Path_of "/srv/app") DEBUG true true
                              (5 * 1024 * 1024) 3 w))))
              "test-bucket" (Backend.mem_client "test-bucket" Backend.test_objects))
    as [Hret _].
  - vm_compute. reflexivity.
  - vm_compute. reflexivity.
  - reflexivity.
  - discriminate.
  - reflexivity.
  - exact Hret.
Defined.
